(** * Prospect interest form

    A shallow embedding of [prospect_interest_form.py]: a three-step
    Streamlit wizard that collects answers in [st.session_state] and, at
    step 3, lays a text summary out with FPDF.

    Streamlit executes the whole script once per user interaction.  One
    execution is the function [script]: it receives the values that the
    widget calls return on that run and the session state left by the
    previous run, and returns the new session state with what the run
    displayed.  Python values are modelled as the script uses them: [str]
    as a list of code points, the [responses] dict as a finite map, the
    two attributes of [st.session_state] as optional record fields. *)

From Stdlib Require Import ZArith NArith List String Ascii DecimalString Bool Lia.
From Stdlib Require Import DecimalPos DecimalN.
From Stdlib.Strings Require Import Byte.
From stdpp Require Import gmap strings list fin_maps.

Open Scope Z_scope.

(** ** Python strings *)

(** A [str] is a sequence of Unicode code points. *)
Definition pystr : Type := list N.

(** An ASCII literal of the source. *)
Definition lit (s : string) : pystr := map N_of_ascii (list_ascii_of_string s).
Arguments lit s%_string.

Definition nl : pystr := [10%N].
Definition en_dash : pystr := [8211%N].

(** [str.isspace] on one code point: the characters Python strips. *)
Definition py_isspace (c : N) : bool :=
  ((9 <=? c) && (c <=? 13) || (28 <=? c) && (c <=? 32) || (c =? 133) || (c =? 160)
   || (c =? 5760) || (8192 <=? c) && (c <=? 8202) || (c =? 8232) || (c =? 8233)
   || (c =? 8239) || (c =? 8287) || (c =? 12288))%N.

Fixpoint lstrip (s : pystr) : pystr :=
  match s with
  | c :: s' => if py_isspace c then lstrip s' else s
  | [] => []
  end.

Definition rstrip (s : pystr) : pystr := rev (lstrip (rev s)).

(** [s.strip()] *)
Definition strip (s : pystr) : pystr := rstrip (lstrip s).

(** [sep.join(lines)] *)
Fixpoint join (sep : pystr) (lines : list pystr) : pystr :=
  match lines with
  | [] => []
  | [l] => l
  | l :: rest => l ++ sep ++ join sep rest
  end.

Fixpoint startswith (s prefix : pystr) {struct prefix} : bool :=
  match prefix, s with
  | [], _ => true
  | p :: prefix', c :: s' => (p =? c)%N && startswith s' prefix'
  | _ :: _, [] => false
  end.

(** [needle in s] on strings. *)
Fixpoint contains (s needle : pystr) : bool :=
  startswith s needle ||
  match s with
  | [] => false
  | _ :: s' => contains s' needle
  end.

(** Empty or whitespace only. *)
Definition blank (s : pystr) : bool := forallb py_isspace s.

(** ** Python values held by the form *)

Inductive PyVal : Type :=
  | PNone
  | PBool (b : bool)
  | PInt (n : Z)
  | PStr (s : pystr).

(** Truth value of an object, as [if], [or] and [not] test it. *)
Definition truthy (v : PyVal) : bool :=
  match v with
  | PNone => false
  | PBool b => b
  | PInt n => negb (n =? 0)
  | PStr s => match s with [] => false | _ => true end
  end.

(** [a or b] *)
Definition py_or (a b : PyVal) : PyVal := if truthy a then a else b.

(** [str(v)], which is how an f-string formats [{v}]. *)
Definition py_str (v : PyVal) : pystr :=
  match v with
  | PNone => lit "None"
  | PBool true => lit "True"
  | PBool false => lit "False"
  | PInt n => lit (NilZero.string_of_int (Z.to_int n))
  | PStr s => s
  end.

(** The [responses] dict. *)
Abbreviation dict := (gmap string PyVal).

(** [d.get(key)], with [None] for a missing key. *)
Definition get (d : dict) (key : string) : PyVal := default PNone (d !! key).

(** [d.update({k1: v1, ...})]: the items are written in order. *)
Definition update (d : dict) (items : list (string * PyVal)) : dict :=
  foldl (fun acc kv => <[kv.1 := kv.2]> acc) d items.

(** ** Exceptions *)

Inductive Exn : Type :=
  | UnicodeEncodeError.

Inductive result (A : Type) : Type :=
  | Return (a : A)
  | Raise (e : Exn).
Arguments Return {A} a.
Arguments Raise {A} e.

#[global] Instance result_ret : MRet result := fun A a => Return a.
#[global] Instance result_bind : MBind result := fun A B k r =>
  match r with
  | Return a => k a
  | Raise e => Raise e
  end.

(** [s.encode('latin-1')]: one byte per code point, and an error at the
    first code point above 255. *)
Fixpoint encode_latin1 (s : pystr) : result (list byte) :=
  match s with
  | [] => Return []
  | c :: s' =>
      match Byte.of_N c with
      | Some b => bs ← encode_latin1 s'; mret (b :: bs)
      | None => Raise UnicodeEncodeError
      end
  end.

Definition latin1 (c : N) : Prop := (c <= 255)%N.

(** Every character of [s] is within Latin-1. *)
Definition narrow (s : pystr) : bool := forallb (fun c => (c <=? 255)%N) s.

(** ** The FPDF document

    FPDF is an external library (PyFPDF 1.7.2, the release whose
    [output(dest='S')] returns a [str]).  The model keeps the calls that
    [create_summary_pdf] makes on its [pdf] object, in order and with
    their arguments.  Of [pdf.output] it keeps what its caller can
    observe:
    - each page is encoded with Latin-1 when the document is closed, so
      the call raises [UnicodeEncodeError] when the text written on the
      page holds a character above 255;
    - the document information carries [/CreationDate], which the
      library reads from [datetime.now()];
    - the returned [str] only holds characters up to 255.
    The objects that come before and after the creation date (layout,
    compression, fonts, cross references) are left to the library: they
    are two functions of the calls. *)

Inductive FpdfCall : Type :=
  | add_page
  | set_font (family style : pystr) (size : Z)
  | cell (w h : Z) (txt : pystr) (ln : bool) (align : pystr)
  | ln (h : Z)
  | multi_cell (w h : Z) (txt : pystr).

(** The text operand of a call, if it has one. *)
Definition call_text (c : FpdfCall) : pystr :=
  match c with
  | cell _ _ txt _ _ => txt
  | multi_cell _ _ txt => txt
  | _ => []
  end.

(** [io.BytesIO]: a buffer and the read position. *)
Record BytesIO : Type := mkBytesIO {
  getvalue : list byte;
  tell : Z
}.

(** The installed library: the bytes of the document before and after
    the creation date, for a document built by the given calls. *)
Record Fpdf : Type := mkFpdf {
  fpdf_objects : list FpdfCall -> list byte;
  fpdf_trailer : list FpdfCall -> list byte
}.

(** What one run of the script obtains from outside the repository. *)
Record Env : Type := mkEnv {
  (** [date.today().strftime("%B %d, %Y")] *)
  today_str : pystr;
  (** [datetime.now()], as the number that
      [strftime('%Y%m%d%H%M%S')] prints *)
  now_stamp : N;
  fpdf : Fpdf
}.

Definition title_text : pystr := lit "Prospective Client Interest Summary".

(** The f-string handed to [multi_cell] (lines 14 to 26). *)
Definition body_text (summary_text today : pystr) : pystr :=
  nl ++ lit "Date: " ++ today ++ nl
  ++ nl
  ++ lit "This is a preliminary summary from the initial interest form." ++ nl
  ++ nl
  ++ lit "Summary of responses:" ++ nl
  ++ summary_text ++ nl
  ++ nl
  ++ lit "Note: This is not a formal engagement or signed document." ++ nl
  ++ lit "No sensitive or identifying information was collected." ++ nl
  ++ nl
  ++ lit "Next steps will be discussed after review." ++ nl.

(** The calls made on [pdf] between [FPDF()] and [pdf.output]. *)
Definition pdf_calls (summary_text today : pystr) : list FpdfCall :=
  [ add_page;
    set_font (lit "Arial") (lit "B") 16;
    cell 0 10 title_text true (lit "C");
    ln 10;
    set_font (lit "Arial") (lit "") 12;
    multi_cell 0 8 (body_text summary_text today) ].

(** The text that the calls write on the page. *)
Definition page_text (calls : list FpdfCall) : pystr :=
  concat (map call_text calls).

(** The digits of [datetime.now().strftime('%Y%m%d%H%M%S')]. *)
Definition creation_stamp (env : Env) : pystr :=
  lit (NilZero.string_of_uint (N.to_uint (now_stamp env))).

(** The document as a [str]: the library's objects, the creation date
    of the document information, the rest. *)
Definition document (env : Env) (calls : list FpdfCall) : pystr :=
  map Byte.to_N (fpdf_objects (fpdf env) calls)
  ++ lit "/CreationDate (D:" ++ creation_stamp env ++ lit ")" ++ nl
  ++ map Byte.to_N (fpdf_trailer (fpdf env) calls).

(** [pdf.output(dest='S')] *)
Definition pdf_output (env : Env) (calls : list FpdfCall) : result pystr :=
  if narrow (page_text calls) then Return (document env calls)
  else Raise UnicodeEncodeError.

(** The str that [pdf.output(dest='S')] returns in [create_summary_pdf],
    when it returns. *)
Definition rendered (env : Env) (summary_text today : pystr) : pystr :=
  document env (pdf_calls summary_text today).

Definition create_summary_pdf (env : Env) (summary_text today : pystr)
  : result BytesIO :=
  out ← pdf_output env (pdf_calls summary_text today);
  pdf_bytes ← encode_latin1 out;
  (* BytesIO(pdf_bytes), then seek(0) *)
  mret (mkBytesIO pdf_bytes 0).

(** A reference library for closed examples: the objects are the text
    operands, one per line and uncompressed; nothing follows the
    creation date. *)
Definition plain_fpdf : Fpdf :=
  mkFpdf
    (fun calls => omap Byte.of_N (concat (map (fun c => call_text c ++ nl) calls)))
    (fun _ => []).

Definition plain_env (today : pystr) : Env := mkEnv today 20261103221100 plain_fpdf.

(** ** Session state and widgets *)

(** [st.session_state]: the script only ever sets the keys [step] and
    [responses]; a key that is not set is [None] here. *)
Record SessionState : Type := mkSession {
  step : option Z;
  responses : option dict
}.

(** A session that has just started, or whose keys were all deleted. *)
Definition empty_session : SessionState := mkSession None None.

(** The values returned by the widget calls of one run.  A run only
    executes the calls of the current step; the others are not read. *)
Record Widgets : Type := mkWidgets {
  (* form "step1" *)
  situation : pystr;
  timeline : pystr;
  complexity : Z;
  submitted : bool;
  (* form "step2" *)
  main_concern : pystr;
  contact_pref : pystr;
  email : pystr;
  phone : pystr;
  interest_confirm : bool;
  back : bool;
  submit_final : bool;
  (* step 3 *)
  generate : bool;
  download : bool;
  start_over : bool
}.

Definition situation_options : list pystr :=
  [ lit "Looking for help with personal or family taxes";
    lit "Need guidance on business or self-employment taxes";
    lit "Exploring tax planning or year-end strategies";
    lit "Dealing with a recent life event that may affect taxes (for myself or a family member)";
    lit "Other / just exploring CPA services";
    lit "Not sure yet " ++ en_dash ++ lit " want to discuss options" ].

Definition timeline_options : list pystr :=
  [ lit "Immediately / within the next 30 days";
    lit "Within the next 3" ++ en_dash ++ lit "6 months";
    lit "No firm timeline yet " ++ en_dash ++ lit " gathering information";
    lit "Just researching for future reference" ].

Definition contact_pref_options : list pystr :=
  [ lit "Email"; lit "Phone call"; lit "Video call (Zoom/Teams)"; lit "No preference" ].

(** What a run shows or requests, in order. *)
Inductive Output : Type :=
  | subheader (body : pystr)
  | warning (body : pystr)
  | success (body : pystr)
  | info (body : pystr)
  | download_button (label : pystr) (data : BytesIO) (file_name mime : pystr)
  | button (label : pystr)
  | rerun
  | uncaught (e : Exn).

(** ** The script *)

(** [text.strip() if text.strip() else None] (lines 139 and 140). *)
Definition strip_or_none (text : pystr) : PyVal :=
  if truthy (PStr (strip text)) then PStr (strip text) else PNone.

(** [summary_lines] of the step-3 handler (lines 171 to 179). *)
Definition summary_lines (resp : dict) : list pystr :=
  [ lit "Reason for reaching out: " ++ py_str (get resp "situation");
    lit "Timeline: " ++ py_str (get resp "timeline");
    lit "Complexity level: " ++ py_str (get resp "complexity") ++ lit "/5";
    lit "Main concern: "
      ++ py_str (py_or (get resp "main_concern") (PStr (lit "None provided")));
    lit "Preferred contact: " ++ py_str (get resp "contact_pref");
    lit "Email: " ++ py_str (py_or (get resp "email") (PStr (lit "Not provided")));
    lit "Phone: " ++ py_str (py_or (get resp "phone") (PStr (lit "Not provided"))) ].

Definition summary_text (resp : dict) : pystr := join nl (summary_lines resp).

(** One run of the script from line 46 on.  Calls that only draw (the
    page title, the markdown blocks, the widgets themselves) are left
    out: they neither read nor write the session state; the subheader is
    kept to tell the three views apart.  [st.rerun()] and an uncaught
    exception both end the run where they occur. *)
Definition script (env : Env) (w : Widgets) (ss : SessionState)
  : SessionState * list Output :=
  (* lines 46 to 49: missing keys are initialised *)
  let step0 := default 1 (step ss) in
  let responses0 := default ∅ (responses ss) in
  let same := mkSession (Some step0) (Some responses0) in
  if step0 =? 1 then
    let shown := [subheader (lit "Step 1: General Situation")] in
    if submitted w then
      (mkSession (Some 2)
         (Some (update responses0
                  [ ("situation"%string, PStr (situation w));
                    ("timeline"%string, PStr (timeline w));
                    ("complexity"%string, PInt (complexity w)) ])),
       shown ++ [rerun])
    else (same, shown)
  else if step0 =? 2 then
    let shown := [subheader (lit "Step 2: A Few More Details")] in
    if back w then
      (mkSession (Some 1) (Some responses0), shown ++ [rerun])
    else if submit_final w then
      if negb (interest_confirm w) then
        (same, shown ++ [warning (lit "Please confirm interest to continue.")])
      else
        (mkSession (Some 3)
           (Some (update responses0
                    [ ("main_concern"%string, PStr (main_concern w));
                      ("contact_pref"%string, PStr (contact_pref w));
                      ("email"%string, strip_or_none (email w));
                      ("phone"%string, strip_or_none (phone w));
                      ("interest_confirm"%string, PBool (interest_confirm w)) ])),
         shown ++ [rerun])
    else (same, shown)
  else if step0 =? 3 then
    let shown := [subheader (lit "Step 3: Review Your Responses")] in
    let resp := responses0 in
    if generate w then
      match create_summary_pdf env (summary_text resp) (today_str env) with
      | Raise e => (same, shown ++ [uncaught e])
      | Return pdf_bytes =>
          let shown :=
            shown ++
            [ success (lit "Summary PDF created!");
              download_button (lit "Download Preliminary Summary (PDF)") pdf_bytes
                (lit "CPA_Interest_Summary_" ++ today_str env ++ lit ".pdf")
                (lit "application/pdf");
              info (lit "Thank you! This summary will help me prepare for a productive conversation.");
              button (lit "Start Over (new prospect)") ] in
          if start_over w then
            (* every key of st.session_state is deleted *)
            (empty_session, shown ++ [rerun])
          else (same, shown)
      end
    else (same, shown)
  else (same, []).

(** The session state after a sequence of runs. *)
Definition run_all (runs : list (Env * Widgets)) (ss : SessionState) : SessionState :=
  foldl (fun s r => (script r.1 r.2 s).1) ss runs.

(** ** User actions

    Streamlit reruns the script once per interaction, and a button call
    returns [True] only on the run that its own click caused.  A user
    action therefore fixes the widget values of a run: at most one
    button is pressed, and a form button carries the values of its form. *)

Inductive Event : Type :=
  | page_load
  | click_continue (situation timeline : pystr) (complexity : Z)
  | click_back
  | click_submit (main_concern contact_pref email phone : pystr) (interest_confirm : bool)
  | click_generate
  | click_download
  | click_start_over.

(** The widget defaults: first option, slider at 3, empty text, box unchecked. *)
Definition default_situation : pystr := lit "Looking for help with personal or family taxes".
Definition default_timeline : pystr := lit "Immediately / within the next 30 days".
Definition default_complexity : Z := 3.

Definition widgets_of (ev : Event) : Widgets :=
  let s := default_situation in
  let t := default_timeline in
  let c := default_complexity in
  let e := lit "Email" in
  match ev with
  | page_load =>
      mkWidgets s t c false [] e [] [] false false false false false false
  | click_continue s' t' c' =>
      mkWidgets s' t' c' true [] e [] [] false false false false false false
  | click_back =>
      mkWidgets s t c false [] e [] [] false true false false false false
  | click_submit mc cp em ph ic =>
      mkWidgets s t c false mc cp em ph ic false true false false false
  | click_generate =>
      mkWidgets s t c false [] e [] [] false false false true false false
  | click_download =>
      mkWidgets s t c false [] e [] [] false false false false true false
  | click_start_over =>
      mkWidgets s t c false [] e [] [] false false false false false true
  end.

Definition handle (env : Env) (ev : Event) (ss : SessionState)
  : SessionState * list Output :=
  script env (widgets_of ev) ss.

(** The session state after a sequence of user actions. *)
Definition play (actions : list (Env * Event)) (ss : SessionState) : SessionState :=
  foldl (fun s a => (handle a.1 a.2 s).1) ss actions.

Definition is_continue (ev : Event) : bool :=
  match ev with
  | click_continue _ _ _ => true
  | _ => false
  end.

(** ** Vocabulary of the statements *)

(** The eight fields of the data model. *)
Definition step1_fields : list string :=
  ["situation"; "timeline"; "complexity"]%string.

Definition step2_fields : list string :=
  ["main_concern"; "contact_pref"; "email"; "phone"; "interest_confirm"]%string.

Definition all_fields : list string := step1_fields ++ step2_fields.

(** Every listed key is present in the session's record. *)
Definition has_fields (fields : list string) (ss : SessionState) : Prop :=
  exists resp : dict, responses ss = Some resp /\
    forall key, In key fields -> is_Some (resp !! key).

(** The run with widgets [w] in state [ss] takes the step-1 submit branch. *)
Definition submits_step1 (ss : SessionState) (w : Widgets) : bool :=
  (default 1 (step ss) =? 1) && submitted w.

(** The run takes the step-2 submit branch with the box checked. *)
Definition submits_step2 (ss : SessionState) (w : Widgets) : bool :=
  (default 1 (step ss) =? 2) && negb (back w) && submit_final w && interest_confirm w.

(** Some run of the sequence, started in [ss], satisfied [P] in the
    state it found. *)
Definition happened (P : SessionState -> Widgets -> bool)
    (runs : list (Env * Widgets)) (ss : SessionState) : Prop :=
  exists before r after,
    runs = before ++ r :: after /\ P (run_all before ss) r.2 = true.

(** The record holds the three step-1 answers. *)
Definition keeps_step1 (sit tl : pystr) (cx : Z) (ss : SessionState) : Prop :=
  exists resp : dict, responses ss = Some resp /\
    resp !! "situation"%string = Some (PStr sit) /\
    resp !! "timeline"%string = Some (PStr tl) /\
    resp !! "complexity"%string = Some (PInt cx).

(** ** The end-to-end scenario of the specification *)

Definition scenario_env : Env := plain_env (lit "November 03, 2026").


Definition scenario_actions : list (Env * Event) :=
  [ (scenario_env,
     click_continue (lit "Looking for help with personal or family taxes")
       (lit "Immediately / within the next 30 days") 4);
    (scenario_env,
     click_submit (lit "") (lit "Email") (lit "  ") (lit "555-1234") true) ].

Definition scenario_session : SessionState := play scenario_actions empty_session.

Definition scenario_record : dict := default ∅ (responses scenario_session).

Definition scenario_summary : pystr := summary_text scenario_record.

(** The record the scenario is expected to end with, as the code builds it. *)
Definition scenario_expected : dict :=
  update ∅
    [ ("situation"%string, PStr (lit "Looking for help with personal or family taxes"));
      ("timeline"%string, PStr (lit "Immediately / within the next 30 days"));
      ("complexity"%string, PInt 4);
      ("main_concern"%string, PStr (lit ""));
      ("contact_pref"%string, PStr (lit "Email"));
      ("email"%string, PNone);
      ("phone"%string, PStr (lit "555-1234"));
      ("interest_confirm"%string, PBool true) ].

(** A field is absent: no key, or the key holds [None]. *)
Definition absent (resp : dict) (key : string) : Prop :=
  resp !! key = None \/ resp !! key = Some PNone.


(** The scenario as runs of the script. *)
Definition scenario_runs : list (Env * Widgets) :=
  map (fun a => (a.1, widgets_of a.2)) scenario_actions.

(** The scenario's outcome in the words of the specification. *)
Definition scenario_as_specified : Prop :=
  absent scenario_record "main_concern" /\
  absent scenario_record "email" /\
  scenario_record !! "phone"%string = Some (PStr (lit "555-1234")) /\
  contains scenario_summary (lit "None provided") = true /\
  contains scenario_summary (lit "Complexity level: 4/5") = true /\
  contains scenario_summary (lit "Phone: 555-1234") = true /\
  contains scenario_summary (lit "Email:  ") = false.

(** ** The controller as a transition relation

    The five ways in which one run can leave the session state.  The
    last one is the body of the Start Over handler. *)

Definition step1_items (w : Widgets) : list (string * PyVal) :=
  [ ("situation"%string, PStr (situation w));
    ("timeline"%string, PStr (timeline w));
    ("complexity"%string, PInt (complexity w)) ].

Definition step2_items (w : Widgets) : list (string * PyVal) :=
  [ ("main_concern"%string, PStr (main_concern w));
    ("contact_pref"%string, PStr (contact_pref w));
    ("email"%string, strip_or_none (email w));
    ("phone"%string, strip_or_none (phone w));
    ("interest_confirm"%string, PBool (interest_confirm w)) ].

Inductive transition (ss : SessionState) (w : Widgets) : SessionState -> Prop :=
  | t_stay :
      transition ss w
        (mkSession (Some (default 1 (step ss))) (Some (default ∅ (responses ss))))
  | t_continue :
      submits_step1 ss w = true ->
      transition ss w
        (mkSession (Some 2) (Some (update (default ∅ (responses ss)) (step1_items w))))
  | t_back :
      default 1 (step ss) = 2 ->
      transition ss w (mkSession (Some 1) (Some (default ∅ (responses ss))))
  | t_submit :
      submits_step2 ss w = true ->
      transition ss w
        (mkSession (Some 3) (Some (update (default ∅ (responses ss)) (step2_items w))))
  | t_start_over :
      default 1 (step ss) = 3 -> generate w = true -> start_over w = true ->
      transition ss w empty_session.

(** A stored confirmation flag is [True]. *)
Definition confirmed_only (ss : SessionState) : Prop :=
  forall (resp : dict) (v : PyVal),
    responses ss = Some resp -> resp !! "interest_confirm"%string = Some v ->
    v = PBool true.

(** What the step indicator tells about the runs so far and the record. *)
Definition wizard_inv (runs : list (Env * Widgets)) (ss : SessionState) : Prop :=
  (step ss = Some 2 ->
     happened submits_step1 runs empty_session /\ has_fields step1_fields ss) /\
  (step ss = Some 3 ->
     happened submits_step1 runs empty_session /\
     happened submits_step2 runs empty_session /\
     has_fields all_fields ss /\
     exists resp : dict, responses ss = Some resp /\
       resp !! "interest_confirm"%string = Some (PBool true)).

(** ** The step-3 review *)

Definition em_dash : pystr := [8212%N].

(** [d.get(key, default)] *)
Definition get_or (d : dict) (key : string) (dflt : PyVal) : PyVal :=
  default dflt (d !! key).

(** The f-string that the step-3 view passes to [st.markdown] (lines
    151 to 164).  [script] leaves the call out, as it only draws. *)
Definition review_markdown (resp : dict) : pystr :=
  nl
  ++ lit "**Main reason for reaching out:** "
  ++ py_str (get_or resp "situation" (PStr em_dash)) ++ lit "  " ++ nl
  ++ lit "**Timeline:** " ++ py_str (get_or resp "timeline" (PStr em_dash)) ++ lit "  " ++ nl
  ++ lit "**Perceived complexity:** Level "
  ++ py_str (get_or resp "complexity" (PStr em_dash)) ++ lit " / 5  " ++ nl
  ++ nl
  ++ lit "**Biggest question/concern:**  " ++ nl
  ++ py_str (get_or resp "main_concern" (PStr (lit "Not provided"))) ++ nl
  ++ nl
  ++ lit "**Preferred contact method:** "
  ++ py_str (get_or resp "contact_pref" (PStr em_dash)) ++ nl
  ++ nl
  ++ lit "**Contact info provided (optional):**  " ++ nl
  ++ lit "- Email: "
  ++ py_str (py_or (get resp "email") (PStr (lit "Not provided"))) ++ lit "  " ++ nl
  ++ lit "- Phone: "
  ++ py_str (py_or (get resp "phone") (PStr (lit "Not provided"))) ++ nl.

(** The same text for a record that holds every answer: no placeholder. *)
Definition review_of (sit tl : pystr) (cx : Z) (mc cp : pystr) (em ph : PyVal) : pystr :=
  nl
  ++ lit "**Main reason for reaching out:** " ++ sit ++ lit "  " ++ nl
  ++ lit "**Timeline:** " ++ tl ++ lit "  " ++ nl
  ++ lit "**Perceived complexity:** Level " ++ py_str (PInt cx) ++ lit " / 5  " ++ nl
  ++ nl
  ++ lit "**Biggest question/concern:**  " ++ nl
  ++ mc ++ nl
  ++ nl
  ++ lit "**Preferred contact method:** " ++ cp ++ nl
  ++ nl
  ++ lit "**Contact info provided (optional):**  " ++ nl
  ++ lit "- Email: " ++ py_str (py_or em (PStr (lit "Not provided"))) ++ lit "  " ++ nl
  ++ lit "- Phone: " ++ py_str (py_or ph (PStr (lit "Not provided"))) ++ nl.

(** ** Further vocabulary *)

(** Not empty, and no whitespace at either end. *)
Definition trimmed (s : pystr) : Prop :=
  s <> [] /\
  (forall c t, s = c :: t -> py_isspace c = false) /\
  (forall t c, s = t ++ [c] -> py_isspace c = false).

(** What the record may hold for [email] and [phone]. *)
Definition contact_value (v : PyVal) : Prop :=
  v = PNone \/ exists s : pystr, v = PStr s /\ trimmed s.

(** The widgets return what Streamlit lets the user choose: an option
    of each select box or radio, a slider value from 1 to 5. *)
Definition valid_widgets (w : Widgets) : Prop :=
  In (situation w) situation_options /\
  In (timeline w) timeline_options /\
  1 <= complexity w <= 5 /\
  In (contact_pref w) contact_pref_options.

(** The choices stored in the record are choices the form offers. *)
Definition valid_choices (ss : SessionState) : Prop :=
  forall resp : dict, responses ss = Some resp ->
    (forall v, resp !! "situation"%string = Some v ->
       exists s, v = PStr s /\ In s situation_options) /\
    (forall v, resp !! "timeline"%string = Some v ->
       exists s, v = PStr s /\ In s timeline_options) /\
    (forall v, resp !! "complexity"%string = Some v ->
       exists n, v = PInt n /\ 1 <= n <= 5) /\
    (forall v, resp !! "contact_pref"%string = Some v ->
       exists s, v = PStr s /\ In s contact_pref_options).

(** The fields that hold text whenever they are set. *)
Definition text_fields : list string :=
  ["situation"; "timeline"; "main_concern"; "contact_pref"]%string.

(** Shape of the record in a reachable state: only keys of the data
    model, the step-2 keys only once step 3 is reached, the choices and
    the free text stored as [str], the complexity as [int], the contact
    details as [None] or trimmed text. *)
Definition record_inv (ss : SessionState) : Prop :=
  forall resp : dict, responses ss = Some resp ->
    (forall key, is_Some (resp !! key) -> In key all_fields) /\
    (forall key, In key step2_fields -> is_Some (resp !! key) -> step ss = Some 3) /\
    (forall key v, In key text_fields -> resp !! key = Some v -> exists s, v = PStr s) /\
    (forall v, resp !! "complexity"%string = Some v -> exists n, v = PInt n) /\
    (forall v, resp !! "email"%string = Some v -> contact_value v) /\
    (forall v, resp !! "phone"%string = Some v -> contact_value v).

(** The summary for given answers, as the PDF page shows them. *)
Definition summary_of (sit tl : pystr) (cx : Z) (mc cp em ph : pystr) : pystr :=
  join nl
    [ lit "Reason for reaching out: " ++ sit;
      lit "Timeline: " ++ tl;
      lit "Complexity level: " ++ py_str (PInt cx) ++ lit "/5";
      lit "Main concern: " ++ (match mc with [] => lit "None provided" | _ => mc end);
      lit "Preferred contact: " ++ cp;
      lit "Email: " ++ (if blank em then lit "Not provided" else strip em);
      lit "Phone: " ++ (if blank ph then lit "Not provided" else strip ph) ].

(** * Properties *)

(** ** Python builtins *)

Lemma blank_app (s t : pystr) : blank (s ++ t) = blank s && blank t.
Proof. apply forallb_app. Qed.

Lemma blank_rev (s : pystr) : blank (rev s) = blank s.
Proof.
  induction s as [|c s IH]; [reflexivity|].
  simpl. rewrite blank_app, IH. simpl.
  rewrite andb_true_r. apply andb_comm.
Qed.

Lemma lstrip_nil (s : pystr) : lstrip s = [] <-> blank s = true.
Proof.
  induction s as [|c s IH]; simpl.
  - tauto.
  - destruct (py_isspace c); simpl; [exact IH|].
    split; discriminate.
Qed.

Lemma blank_lstrip (s : pystr) : blank (lstrip s) = blank s.
Proof.
  induction s as [|c s IH]; [reflexivity|].
  simpl. destruct (py_isspace c) eqn:Hc; simpl; [exact IH|].
  now rewrite Hc.
Qed.

Lemma rstrip_nil (s : pystr) : rstrip s = [] <-> blank s = true.
Proof.
  unfold rstrip. rewrite <- blank_rev, <- lstrip_nil.
  split; intros H.
  - apply (f_equal (@rev N)) in H. now rewrite rev_involutive in H.
  - now rewrite H.
Qed.

(** [strip] leaves nothing exactly when the text is empty or all
    whitespace. *)
Lemma strip_nil (s : pystr) : strip s = [] <-> blank s = true.
Proof. unfold strip. now rewrite rstrip_nil, blank_lstrip. Qed.

(** What [strip] returns starts with no whitespace... *)
Lemma lstrip_head (s : pystr) (c : N) (t : pystr) :
  lstrip s = c :: t -> py_isspace c = false.
Proof.
  induction s as [|d s IH]; simpl; [discriminate|].
  destruct (py_isspace d) eqn:Hd; [exact IH|].
  intros [= <- _]. exact Hd.
Qed.

Lemma lstrip_suffix (s : pystr) : exists ws, s = ws ++ lstrip s /\ blank ws = true.
Proof.
  induction s as [|c s [ws [Hs Hws]]].
  - now exists [].
  - simpl. destruct (py_isspace c) eqn:Hc.
    + exists (c :: ws). simpl. rewrite Hc, Hws. split; [now f_equal|reflexivity].
    + now exists [].
Qed.

(** ... and [strip] only removes whitespace at the two ends. *)
Lemma strip_frame (s : pystr) :
  exists ws1 ws2, s = ws1 ++ strip s ++ ws2 /\ blank ws1 = true /\ blank ws2 = true.
Proof.
  destruct (lstrip_suffix s) as [ws1 [H1 Hb1]].
  destruct (lstrip_suffix (rev (lstrip s))) as [ws2 [H2 Hb2]].
  exists ws1, (rev ws2). split; [|split]; [|exact Hb1|now rewrite blank_rev].
  unfold strip, rstrip.
  apply (f_equal (@rev N)) in H2. rewrite rev_involutive, rev_app_distr in H2.
  now rewrite <- H2.
Qed.

Lemma strip_or_none_spec (text : pystr) :
  strip_or_none text = if blank text then PNone else PStr (strip text).
Proof.
  unfold strip_or_none. simpl.
  destruct (blank text) eqn:Hb.
  - apply strip_nil in Hb. now rewrite Hb.
  - destruct (strip text) eqn:Hs; [|reflexivity].
    apply strip_nil in Hs. congruence.
Qed.

Lemma encode_latin1_raises (s : pystr) :
  encode_latin1 s = Raise UnicodeEncodeError <-> Exists (fun c => (255 < c)%N) s.
Proof.
  induction s as [|c s IH]; simpl.
  - split; [discriminate|]. intros H. inversion H.
  - destruct (Byte.of_N c) as [b|] eqn:Hc.
    + assert (Hle : ~ (255 < c)%N).
      { intros Hlt. apply Byte.of_N_None_iff in Hlt. congruence. }
      rewrite Exists_cons. destruct (encode_latin1 s) as [bs|[]]; simpl.
      * split; [discriminate|]. intros [H|H]; [contradiction|].
        apply IH in H. discriminate.
      * split; [intros _; right; now apply IH|reflexivity].
    + apply Byte.of_N_None_iff in Hc.
      split; [intros _; now left|reflexivity].
Qed.

Lemma encode_latin1_returns (s : pystr) :
  Forall latin1 s ->
  exists bs, encode_latin1 s = Return bs /\ map Byte.to_N bs = s.
Proof.
  induction 1 as [|c s Hc _ [bs [IH1 IH2]]]; simpl.
  - now exists [].
  - destruct (Byte.of_N c) as [b|] eqn:Hb.
    + exists (b :: bs). rewrite IH1. simpl. split; [reflexivity|].
      apply Byte.to_of_N in Hb. now rewrite Hb, IH2.
    + apply Byte.of_N_None_iff in Hb. unfold latin1 in Hc. lia.
Qed.

Lemma narrow_Forall (s : pystr) : narrow s = true <-> Forall latin1 s.
Proof.
  unfold narrow, latin1. induction s as [|c s IH]; simpl.
  - split; [constructor|reflexivity].
  - rewrite andb_true_iff, N.leb_le, IH. split.
    + intros [Hc Hs]. now constructor.
    + intros H. inversion H; subst. now split.
Qed.


Lemma narrow_app (s t : pystr) : narrow (s ++ t) = narrow s && narrow t.
Proof. apply forallb_app. Qed.

Lemma lit_narrow (s : string) : narrow (lit s) = true.
Proof.
  unfold lit, narrow. induction s as [|a s IH]; [reflexivity|].
  cbn [list_ascii_of_string map forallb]. rewrite IH, andb_true_r.
  apply N.leb_le. pose proof (N_ascii_bounded a). lia.
Qed.

Lemma contains_startswith (s needle : pystr) :
  startswith s needle = true <-> exists rest, s = needle ++ rest.
Proof.
  revert s. induction needle as [|p needle IH]; intros s; simpl.
  - split; [intros _; now exists s|reflexivity].
  - destruct s as [|c s]; simpl.
    + split; [discriminate|]. intros [rest H]. discriminate.
    + rewrite andb_true_iff, N.eqb_eq, IH. split.
      * intros [-> [rest ->]]. now exists rest.
      * intros [rest [= -> ->]]. split; [reflexivity|now exists rest].
Qed.

(** [contains] decides the substring relation. *)
Lemma contains_spec (s needle : pystr) :
  contains s needle = true <-> exists before rest, s = before ++ needle ++ rest.
Proof.
  induction s as [|c s IH].
  - simpl. rewrite orb_false_r, contains_startswith. split.
    + intros [rest H]. now exists [], rest.
    + intros [before [rest H]]. destruct before; [now exists rest|discriminate].
  - cbn [contains]. rewrite orb_true_iff, contains_startswith, IH. split.
    + intros [[rest H]|[before [rest H]]].
      * now exists [], rest.
      * exists (c :: before), rest. simpl. now rewrite H.
    + intros [[|d before] [rest H]].
      * left. now exists rest.
      * right. injection H as -> H. now exists before, rest.
Qed.

(** ** The record under [update] *)

Lemma update_cons (d : dict) (k : string) (v : PyVal) (items : list (string * PyVal)) :
  update d ((k, v) :: items) = update (<[k := v]> d) items.
Proof. reflexivity. Qed.

Lemma update_lookup_other (items : list (string * PyVal)) (d : dict) (key : string) :
  ~ In key (map fst items) -> update d items !! key = d !! key.
Proof.
  revert d. induction items as [|[k v] items IH]; intros d Hnot; [reflexivity|].
  rewrite update_cons, IH.
  - apply lookup_insert_ne. intros ->. apply Hnot. now left.
  - intros Hin. apply Hnot. now right.
Qed.

Lemma update_lookup_kept (items : list (string * PyVal)) (d : dict) (key : string) :
  is_Some (d !! key) -> is_Some (update d items !! key).
Proof.
  revert d. induction items as [|[k v] items IH]; intros d Hd; [exact Hd|].
  rewrite update_cons. apply IH.
  destruct (decide (k = key)) as [->|Hne].
  - rewrite lookup_insert_eq. eauto.
  - now rewrite lookup_insert_ne.
Qed.

Lemma update_lookup_written (items : list (string * PyVal)) (d : dict) (key : string) :
  In key (map fst items) -> is_Some (update d items !! key).
Proof.
  revert d. induction items as [|[k v] items IH]; intros d Hin; [destruct Hin|].
  rewrite update_cons. destruct Hin as [Hk|Hin].
  - simpl in Hk. subst k. apply update_lookup_kept. rewrite lookup_insert_eq. eauto.
  - now apply IH.
Qed.

(** ** One run *)

Lemma script_transition (env : Env) (w : Widgets) (ss : SessionState) :
  transition ss w (script env w ss).1.
Proof.
  unfold script.
  destruct (default 1 (step ss) =? 1) eqn:H1.
  { destruct (submitted w) eqn:Hs; [|apply t_stay].
    apply t_continue. unfold submits_step1. now rewrite H1, Hs. }
  destruct (default 1 (step ss) =? 2) eqn:H2.
  { destruct (back w) eqn:Hb; [apply t_back; lia|].
    destruct (submit_final w) eqn:Hf; [|apply t_stay].
    destruct (interest_confirm w) eqn:Hc; [|apply t_stay].
    assert (T := t_submit ss w). unfold step2_items in T. rewrite Hc in T.
    apply T. unfold submits_step2. now rewrite H2, Hb, Hf, Hc. }
  destruct (default 1 (step ss) =? 3) eqn:H3; [|apply t_stay].
  destruct (generate w) eqn:Hg; [|apply t_stay].
  destruct (create_summary_pdf _ _ _); [|apply t_stay].
  destruct (start_over w) eqn:Ho; [|apply t_stay].
  apply t_start_over; [lia|assumption..].
Qed.

(** The session state a run leaves does not depend on the date or on
    the PDF library. *)
Lemma script_state_env (env1 env2 : Env) (w : Widgets) (ss : SessionState) :
  generate w && start_over w = false ->
  (script env1 w ss).1 = (script env2 w ss).1.
Proof.
  intros Hgo. unfold script.
  repeat match goal with
         | |- context [if ?b then _ else _] => destruct b eqn:?
         | |- context [match ?r with Return _ => _ | Raise _ => _ end] => destruct r
         end; try reflexivity; simpl in Hgo; discriminate.
Qed.

Lemma run_all_snoc (runs : list (Env * Widgets)) (r : Env * Widgets) (ss : SessionState) :
  run_all (runs ++ [r]) ss = (script r.1 r.2 (run_all runs ss)).1.
Proof. unfold run_all. now rewrite foldl_snoc. Qed.

Lemma play_run_all (actions : list (Env * Event)) (ss : SessionState) :
  play actions ss = run_all (map (fun a => (a.1, widgets_of a.2)) actions) ss.
Proof.
  revert ss. induction actions as [|a actions IH]; intros ss; [reflexivity|].
  simpl. apply IH.
Qed.

Lemma happened_snoc (P : SessionState -> Widgets -> bool)
    (runs : list (Env * Widgets)) (r : Env * Widgets) (ss : SessionState) :
  happened P runs ss -> happened P (runs ++ [r]) ss.
Proof.
  intros (before & r0 & after & -> & HP).
  exists before, r0, (after ++ [r]). split; [|exact HP].
  now rewrite <- app_assoc.
Qed.

Lemma happened_last (P : SessionState -> Widgets -> bool)
    (runs : list (Env * Widgets)) (r : Env * Widgets) (ss : SessionState) :
  P (run_all runs ss) r.2 = true -> happened P (runs ++ [r]) ss.
Proof. intros HP. now exists runs, r, []. Qed.

(** ** The step-2 submit handler *)

(** C1: a step-2 submission with [interest_confirm] false, whatever the
    other fields hold, leaves the session exactly as it was (step
    indicator 2, record untouched), shows the warning and requests no
    rerun. *)
Theorem unconfirmed_submit_stays_on_step2
    (env : Env) (ss : SessionState) (resp : dict) (mc cp em ph : pystr) :
  step ss = Some 2 -> responses ss = Some resp ->
  (handle env (click_submit mc cp em ph false) ss).1 = ss /\
  step (handle env (click_submit mc cp em ph false) ss).1 = Some 2 /\
  responses (handle env (click_submit mc cp em ph false) ss).1 = Some resp /\
  (handle env (click_submit mc cp em ph false) ss).2 =
    [ subheader (lit "Step 2: A Few More Details");
      warning (lit "Please confirm interest to continue.") ].
Proof.
  destruct ss as [st rs]. simpl. intros -> ->. repeat split.
Qed.

Lemma unconfirmed_submit_witness :
  let ss := mkSession (Some 2) (Some (update ∅ [("complexity"%string, PInt 4)])) in
  let ev := click_submit (lit "deadlines") (lit "Phone call") (lit "a@b.example") [] false in
  step ss = Some 2 /\
  (handle scenario_env ev ss).1 = ss /\
  (handle scenario_env ev ss).2 =
    [ subheader (lit "Step 2: A Few More Details");
      warning (lit "Please confirm interest to continue.") ].
Proof.
  intros ss ev.
  destruct (unconfirmed_submit_stays_on_step2 scenario_env ss
              (update ∅ [("complexity"%string, PInt 4)])
              (lit "deadlines") (lit "Phone call") (lit "a@b.example") [] eq_refl eq_refl)
    as (H1 & _ & _ & H2).
  split; [reflexivity|]. split; [exact H1|exact H2].
Defined.

(** C2: a step-2 submission with [interest_confirm] true stores, for
    the email and for the phone input alike, [None] when the input is
    empty or whitespace only, and otherwise the stripped text, which is
    then not empty. *)
Theorem confirmed_submit_normalises_contact
    (env : Env) (ss : SessionState) (mc cp em ph : pystr) :
  step ss = Some 2 ->
  exists resp' : dict,
    (handle env (click_submit mc cp em ph true) ss).1 = mkSession (Some 3) (Some resp') /\
    resp' !! "email"%string = Some (if blank em then PNone else PStr (strip em)) /\
    resp' !! "phone"%string = Some (if blank ph then PNone else PStr (strip ph)) /\
    (blank em = false -> strip em <> []) /\
    (blank ph = false -> strip ph <> []).
Proof.
  destruct ss as [st rs]. simpl. intros ->.
  eexists. split; [reflexivity|].
  unfold update. cbn [foldl fst snd].
  rewrite <- !strip_or_none_spec.
  split; [|split; [|split]].
  - now rewrite lookup_insert_ne, lookup_insert_ne, lookup_insert_eq.
  - now rewrite lookup_insert_ne, lookup_insert_eq.
  - intros Hb Hs. apply strip_nil in Hs. congruence.
  - intros Hb Hs. apply strip_nil in Hs. congruence.
Qed.

Lemma confirmed_submit_witness :
  let ss := mkSession (Some 2) (Some ∅) in
  step ss = Some 2 /\
  exists resp' : dict,
    (handle scenario_env
       (click_submit [] (lit "Email") (lit "  ") (lit " 555-1234 ") true) ss).1
      = mkSession (Some 3) (Some resp') /\
    resp' !! "email"%string = Some PNone /\
    resp' !! "phone"%string = Some (PStr (lit "555-1234")).
Proof.
  intros ss. split; [reflexivity|].
  destruct (confirmed_submit_normalises_contact scenario_env ss
              [] (lit "Email") (lit "  ") (lit " 555-1234 ") eq_refl)
    as (resp' & H1 & H2 & H3 & _).
  exists resp'. split; [exact H1|]. split; [exact H2|exact H3].
Defined.

(** ** The step-3 handlers *)

(** C7: pressing Generate at step 3 leaves the session state as it was
    (step indicator 3, same record), whether or not the renderer
    succeeds; when it does, the bytes are offered by the download
    button. *)
Theorem generate_keeps_session (env : Env) (ss : SessionState) (resp : dict) :
  step ss = Some 3 -> responses ss = Some resp ->
  (handle env click_generate ss).1 = ss /\
  forall pdf_bytes : BytesIO,
    create_summary_pdf env (summary_text resp) (today_str env) = Return pdf_bytes ->
    In (download_button (lit "Download Preliminary Summary (PDF)") pdf_bytes
          (lit "CPA_Interest_Summary_" ++ today_str env ++ lit ".pdf")
          (lit "application/pdf"))
       (handle env click_generate ss).2.
Proof.
  destruct ss as [st rs]. simpl. intros -> ->.
  unfold handle, script. cbn -[create_summary_pdf summary_text lit].
  destruct (create_summary_pdf env (summary_text resp) (today_str env)) as [pdf|e].
  - split; [reflexivity|]. intros ? [= <-]. cbn -[lit]. tauto.
  - split; [reflexivity|]. discriminate.
Qed.

Lemma generate_witness :
  step scenario_session = Some 3 /\
  (handle scenario_env click_generate scenario_session).1 = scenario_session.
Proof.
  assert (H3 : step scenario_session = Some 3) by (vm_compute; reflexivity).
  assert (Hr : responses scenario_session = Some scenario_record)
    by (vm_compute; reflexivity).
  split; [exact H3|].
  exact (proj1 (generate_keeps_session scenario_env scenario_session scenario_record H3 Hr)).
Defined.

(** ** The renderer *)

Lemma bytes_narrow (bs : list byte) : narrow (map Byte.to_N bs) = true.
Proof.
  induction bs as [|b bs IH]; [reflexivity|].
  cbn [map narrow forallb]. fold (narrow (map Byte.to_N bs)).
  rewrite IH, andb_true_r. apply N.leb_le, Byte.to_N_bounded.
Qed.

(** What [pdf.output] returns is within Latin-1. *)
Lemma document_narrow (env : Env) (calls : list FpdfCall) :
  narrow (document env calls) = true.
Proof.
  unfold document, creation_stamp.
  now rewrite !narrow_app, !bytes_narrow, !lit_narrow.
Qed.

(** The text on the page is within Latin-1 exactly when the date and
    the summary are: the fixed text of the page is. *)
Lemma page_text_narrow (summary today : pystr) :
  narrow (page_text (pdf_calls summary today)) = narrow today && narrow summary.
Proof.
  unfold page_text, pdf_calls, body_text, title_text.
  cbn [map concat call_text].
  rewrite !narrow_app, !lit_narrow. cbn [narrow forallb nl app].
  cbn. now rewrite !andb_true_r.
Qed.

Lemma encode_narrow (s : pystr) :
  narrow s = true -> exists bs, encode_latin1 s = Return bs /\ map Byte.to_N bs = s.
Proof. intros H. now apply encode_latin1_returns, narrow_Forall. Qed.

Lemma create_summary_pdf_unfold (env : Env) (summary today : pystr) :
  create_summary_pdf env summary today =
  if narrow today && narrow summary then
    match encode_latin1 (rendered env summary today) with
    | Return bs => Return (mkBytesIO bs 0)
    | Raise e => Raise e
    end
  else Raise UnicodeEncodeError.
Proof.
  unfold create_summary_pdf, pdf_output. rewrite page_text_narrow.
  now destruct (narrow today && narrow summary).
Qed.

(** The two outcomes of the renderer: [pdf.output] raises on a page
    text outside Latin-1; otherwise line 29 encodes the document, which
    cannot fail. *)
Lemma create_summary_pdf_cases (env : Env) (summary today : pystr) :
  (narrow today && narrow summary = false /\
   create_summary_pdf env summary today = Raise UnicodeEncodeError) \/
  (narrow today && narrow summary = true /\
   exists bs : list byte,
     create_summary_pdf env summary today = Return (mkBytesIO bs 0) /\
     map Byte.to_N bs = rendered env summary today).
Proof.
  rewrite create_summary_pdf_unfold.
  destruct (narrow today && narrow summary); [right|now left].
  split; [reflexivity|].
  destruct (encode_narrow _ (document_narrow env (pdf_calls summary today)))
    as (bs & Hbs & Hmap).
  exists bs. unfold rendered. now rewrite Hbs.
Qed.



(** ** Invariants of the reachable states *)

Lemma step_of_default (ss : SessionState) (n : Z) :
  default 1 (step ss) = n -> n <> 1 -> step ss = Some n.
Proof. destruct ss as [[st|] rs]; simpl; intros <- Hn; [reflexivity|contradiction]. Qed.

Lemma has_fields_default (fields : list string) (ss : SessionState) (st : option Z) :
  has_fields fields ss ->
  has_fields fields (mkSession st (Some (default ∅ (responses ss)))).
Proof.
  intros (resp & Hr & Hk). exists resp. rewrite Hr. now split.
Qed.

Lemma submits_step1_inv (ss : SessionState) (w : Widgets) :
  submits_step1 ss w = true -> default 1 (step ss) = 1 /\ submitted w = true.
Proof.
  unfold submits_step1. rewrite andb_true_iff, Z.eqb_eq. tauto.
Qed.

Lemma submits_step2_inv (ss : SessionState) (w : Widgets) :
  submits_step2 ss w = true ->
  step ss = Some 2 /\ submit_final w = true /\ interest_confirm w = true.
Proof.
  unfold submits_step2. rewrite !andb_true_iff, Z.eqb_eq.
  intros [[[H2 _] Hf] Hc]. split; [|tauto]. now apply step_of_default.
Qed.

Lemma transition_confirmed (ss ss' : SessionState) (w : Widgets) :
  transition ss w ss' -> confirmed_only ss -> confirmed_only ss'.
Proof.
  intros T Hc resp v Hr Hv.
  assert (Hd : forall u, default ∅ (responses ss) !! "interest_confirm"%string = Some u ->
                         u = PBool true).
  { intros u. destruct (responses ss) as [r|] eqn:Hrs; simpl.
    - now apply Hc.
    - rewrite lookup_empty. discriminate. }
  destruct T as [|H1| |H2|]; simpl in Hr; try (injection Hr as <-).
  - now apply Hd.
  - apply Hd. rewrite <- Hv. symmetry.
    apply (update_lookup_other (step1_items w)).
    simpl. intros [H|[H|[H|[]]]]; discriminate.
  - now apply Hd.
  - apply submits_step2_inv in H2 as (_ & _ & Hic).
    unfold update, step2_items in Hv. cbn [foldl fst snd] in Hv.
    rewrite lookup_insert_eq, Hic in Hv. congruence.
  - discriminate.
Qed.

Lemma confirmed_only_reachable (runs : list (Env * Widgets)) :
  confirmed_only (run_all runs empty_session).
Proof.
  induction runs as [|r runs IH] using rev_ind.
  - intros resp v Hr. discriminate.
  - rewrite run_all_snoc. eapply transition_confirmed; [apply script_transition|exact IH].
Qed.

Lemma wizard_inv_reachable (runs : list (Env * Widgets)) :
  wizard_inv runs (run_all runs empty_session).
Proof.
  induction runs as [|r runs [IH2 IH3]] using rev_ind.
  - split; discriminate.
  - rewrite run_all_snoc.
    pose proof (script_transition r.1 r.2 (run_all runs empty_session)) as T.
    set (ss := run_all runs empty_session) in *.
    destruct T as [|H1| |H2|]; split; cbn [step responses]; try discriminate.
    + intros [= Hs]. apply step_of_default in Hs; [|lia].
      destruct (IH2 Hs) as [Ha Hf].
      split; [now apply happened_snoc|now apply has_fields_default].
    + intros [= Hs]. apply step_of_default in Hs; [|lia].
      destruct (IH3 Hs) as (Ha & Hb & Hf & resp & Hr & Hc).
      split; [now apply happened_snoc|]. split; [now apply happened_snoc|].
      split; [now apply has_fields_default|].
      exists resp. now rewrite Hr.
    + intros _. split; [now apply happened_last|].
      eexists. split; [reflexivity|]. intros key Hk.
      now apply (update_lookup_written (step1_items r.2)).
    + intros _. pose proof H2 as H2'. apply submits_step2_inv in H2' as (Hs & _ & Hic).
      destruct (IH2 Hs) as [Ha (resp & Hr & Hf)].
      split; [now apply happened_snoc|]. split; [now apply happened_last|].
      rewrite Hr. cbn [default from_option id]. split.
      * eexists. split; [reflexivity|]. intros key Hk.
        apply in_app_or in Hk as [Hk|Hk].
        -- apply update_lookup_kept. now apply Hf.
        -- now apply (update_lookup_written (step2_items r.2)).
      * eexists. split; [reflexivity|].
        unfold update, step2_items. cbn [foldl fst snd].
        now rewrite lookup_insert_eq, Hic.
Qed.

(** C3: in every state reachable from a fresh session, whatever the
    widgets returned on the way, the step indicator is 3 only if some
    earlier run took the step-1 submit and some earlier run took the
    step-2 submit with [interest_confirm] true; the record then has a
    key for each of the eight fields of the data model (for [email] and
    [phone] the value may be [None]) and its flag is [True]. *)
Theorem step3_only_after_both_submits (runs : list (Env * Widgets)) :
  step (run_all runs empty_session) = Some 3 ->
  happened submits_step1 runs empty_session /\
  happened submits_step2 runs empty_session /\
  has_fields all_fields (run_all runs empty_session) /\
  exists resp : dict, responses (run_all runs empty_session) = Some resp /\
    resp !! "interest_confirm"%string = Some (PBool true).
Proof. apply (wizard_inv_reachable runs). Qed.

(** C10: in every reachable state, a record that has the key
    [interest_confirm] holds [True] under it. *)
Theorem stored_confirmation_is_true
    (runs : list (Env * Widgets)) (resp : dict) (v : PyVal) :
  responses (run_all runs empty_session) = Some resp ->
  resp !! "interest_confirm"%string = Some v ->
  v = PBool true.
Proof. apply (confirmed_only_reachable runs). Qed.

Lemma step3_only_after_both_submits_witness :
  step (run_all scenario_runs empty_session) = Some 3 /\
  happened submits_step1 scenario_runs empty_session /\
  happened submits_step2 scenario_runs empty_session /\
  has_fields all_fields (run_all scenario_runs empty_session).
Proof.
  assert (H3 : step (run_all scenario_runs empty_session) = Some 3)
    by (vm_compute; reflexivity).
  destruct (step3_only_after_both_submits scenario_runs H3) as (H1 & H2 & Hf & _).
  exact (conj H3 (conj H1 (conj H2 Hf))).
Defined.

Lemma stored_confirmation_witness :
  responses (run_all scenario_runs empty_session) = Some scenario_record /\
  scenario_record !! "interest_confirm"%string = Some (PBool true) /\
  PBool true = PBool true.
Proof.
  assert (Hr : responses (run_all scenario_runs empty_session) = Some scenario_record)
    by (vm_compute; reflexivity).
  assert (Hv : scenario_record !! "interest_confirm"%string = Some (PBool true))
    by (vm_compute; reflexivity).
  exact (conj Hr (conj Hv
           (stored_confirmation_is_true scenario_runs scenario_record (PBool true) Hr Hv))).
Defined.

(** ** The step-1 answers *)

Lemma keeps_step1_default (sit tl : pystr) (cx : Z) (ss : SessionState) (st : option Z) :
  keeps_step1 sit tl cx ss ->
  keeps_step1 sit tl cx (mkSession st (Some (default ∅ (responses ss)))).
Proof.
  intros (resp & Hr & H). exists resp. rewrite Hr. now split.
Qed.

Lemma widgets_of_one_button (ev : Event) :
  generate (widgets_of ev) && start_over (widgets_of ev) = false.
Proof. now destruct ev. Qed.

Lemma widgets_of_submitted (ev : Event) :
  submitted (widgets_of ev) = is_continue ev.
Proof. now destruct ev. Qed.

(** Every action other than the step-1 Continue leaves the three
    step-1 answers in the record. *)
Lemma handle_keeps_step1 (env : Env) (ev : Event) (sit tl : pystr) (cx : Z)
    (ss : SessionState) :
  is_continue ev = false ->
  keeps_step1 sit tl cx ss -> keeps_step1 sit tl cx (handle env ev ss).1.
Proof.
  intros Hev Hk. unfold handle.
  destruct (script_transition env (widgets_of ev) ss) as [|H1| |H2|Hs Hg Ho].
  - now apply keeps_step1_default.
  - apply submits_step1_inv in H1 as [_ H1].
    rewrite widgets_of_submitted in H1. congruence.
  - now apply keeps_step1_default.
  - destruct Hk as (resp & Hr & Hsit & Htl & Hcx).
    eexists. split; [reflexivity|]. rewrite Hr. cbn [default from_option id].
    rewrite !(update_lookup_other (step2_items (widgets_of ev)));
      try (simpl; intros [H|[H|[H|[H|[H|[]]]]]]; discriminate).
    now repeat split.
  - pose proof (widgets_of_one_button ev) as Hb.
    rewrite Hg, Ho in Hb. discriminate.
Qed.

Lemma play_keeps_step1 (later : list (Env * Event)) (sit tl : pystr) (cx : Z)
    (ss : SessionState) :
  Forall (fun a => is_continue a.2 = false) later ->
  keeps_step1 sit tl cx ss -> keeps_step1 sit tl cx (play later ss).
Proof.
  intros Hall. revert ss.
  induction Hall as [|a later Ha _ IH]; intros ss Hk; [exact Hk|].
  simpl. apply IH. now apply handle_keeps_step1.
Qed.

(** C6: a valid step-1 submission (one of the six situations, one of
    the four timelines, a complexity from 1 to 5) moves the controller
    to step 2 with the three values in the record; Back, the step-2
    submit and every other later action that is not a new step-1
    submission leave them there, so the record that reaches step 3
    still holds them. *)
Theorem step1_answers_kept
    (env : Env) (ss : SessionState) (sit tl : pystr) (cx : Z)
    (later : list (Env * Event)) :
  In sit situation_options -> In tl timeline_options -> 1 <= cx <= 5 ->
  default 1 (step ss) = 1 ->
  Forall (fun a => is_continue a.2 = false) later ->
  let ss2 := (handle env (click_continue sit tl cx) ss).1 in
  step ss2 = Some 2 /\
  keeps_step1 sit tl cx ss2 /\
  keeps_step1 sit tl cx (handle env click_back ss2).1 /\
  (forall mc cp em ph ic,
      keeps_step1 sit tl cx (handle env (click_submit mc cp em ph ic) ss2).1) /\
  keeps_step1 sit tl cx (play later ss2).
Proof.
  intros _ _ _ Hs Hlater ss2.
  assert (H2 : step ss2 = Some 2 /\ keeps_step1 sit tl cx ss2).
  { subst ss2. unfold handle, script. rewrite Hs. cbn [Z.eqb widgets_of submitted fst step].
    split; [reflexivity|]. eexists. split; [reflexivity|].
    unfold update. cbn [foldl fst snd situation timeline complexity].
    rewrite lookup_insert_ne, lookup_insert_ne, lookup_insert_eq by discriminate.
    rewrite lookup_insert_ne, lookup_insert_eq by discriminate.
    now rewrite lookup_insert_eq. }
  destruct H2 as [H2 Hk]. split; [exact H2|]. split; [exact Hk|].
  split; [now apply handle_keeps_step1|].
  split; [intros; now apply handle_keeps_step1|].
  now apply play_keeps_step1.
Qed.

Lemma step1_answers_kept_witness :
  let sit := lit "Looking for help with personal or family taxes" in
  let tl := lit "Immediately / within the next 30 days" in
  let later :=
    [ (scenario_env, click_back);
      (scenario_env, page_load);
      (scenario_env, click_submit [] (lit "Email") (lit "  ") (lit "555-1234") true);
      (scenario_env, click_generate) ] in
  let ss2 := (handle scenario_env (click_continue sit tl 4) empty_session).1 in
  In sit situation_options /\ In tl timeline_options /\ 1 <= 4 <= 5 /\
  default 1 (step empty_session) = 1 /\
  step ss2 = Some 2 /\
  keeps_step1 sit tl 4 (play later ss2).
Proof.
  intros sit tl later ss2.
  assert (Hsit : In sit situation_options) by (left; reflexivity).
  assert (Htl : In tl timeline_options) by (left; reflexivity).
  assert (Hcx : 1 <= 4 <= 5) by lia.
  assert (Hlater : Forall (fun a : Env * Event => is_continue a.2 = false) later)
    by (repeat constructor).
  destruct (step1_answers_kept scenario_env empty_session sit tl 4 later
              Hsit Htl Hcx eq_refl Hlater) as (H2 & _ & _ & _ & Hk).
  exact (conj Hsit (conj Htl (conj Hcx (conj eq_refl (conj H2 Hk))))).
Defined.

(** ** The end-to-end scenario *)

(** C8, as stated, fails: the scenario's record does not have
    [main_concern] absent; the key is there and holds the empty string. *)
Lemma scenario_main_concern_is_stored : ~ scenario_as_specified.
Proof.
  intros [[H|H] _]; vm_compute in H; discriminate.
Qed.

(** C8, amended: the scenario ends at step 3 with the record below, in
    which [main_concern] is the empty string, [email] is [None] and
    [phone] is "555-1234"; the summary text shows the main concern as
    "None provided", contains "Complexity level: 4/5", "Email: Not
    provided" and "Phone: 555-1234", and does not contain "Email:"
    followed by two spaces. *)
Theorem scenario_outcome :
  step scenario_session = Some 3 /\
  scenario_record = scenario_expected /\
  scenario_record !! "main_concern"%string = Some (PStr []) /\
  scenario_record !! "email"%string = Some PNone /\
  scenario_record !! "phone"%string = Some (PStr (lit "555-1234")) /\
  contains scenario_summary (lit "Main concern: None provided") = true /\
  contains scenario_summary (lit "Complexity level: 4/5") = true /\
  contains scenario_summary (lit "Email: Not provided") = true /\
  contains scenario_summary (lit "Phone: 555-1234") = true /\
  contains scenario_summary (lit "Email:  ") = false.
Proof. repeat split; vm_compute; reflexivity. Qed.

(** ** Start Over *)

(** The body of the Start Over handler, when a run reaches it, deletes
    both keys, and the run that follows shows step 1 on an empty record. *)
Lemma start_over_handler_clears (env : Env) (w w' : Widgets) (ss : SessionState)
    (pdf_bytes : BytesIO) :
  default 1 (step ss) = 3 -> generate w = true -> start_over w = true ->
  create_summary_pdf env (summary_text (default ∅ (responses ss))) (today_str env)
    = Return pdf_bytes ->
  submitted w' = false ->
  (script env w ss).1 = empty_session /\
  script env w' (script env w ss).1 =
    (mkSession (Some 1) (Some ∅), [subheader (lit "Step 1: General Situation")]).
Proof.
  intros Hs Hg Ho Hpdf Hw'.
  assert (H : (script env w ss).1 = empty_session).
  { unfold script. rewrite Hs, Hg, Ho, Hpdf. reflexivity. }
  split; [exact H|]. rewrite H. unfold script. cbn -[lit]. now rewrite Hw'.
Qed.

(** A click on Start Over reruns the script with the Generate button
    reporting [False]: the handler is not reached. *)
Lemma start_over_click_ignored (env : Env) (ss : SessionState) (resp : dict) :
  step ss = Some 3 -> responses ss = Some resp ->
  handle env click_start_over ss =
    (ss, [subheader (lit "Step 3: Review Your Responses")]).
Proof. destruct ss as [st rs]. simpl. now intros -> ->. Qed.

(** C9: in the scenario, after Generate the Start Over button is on
    the page, and a click on it leaves the session where it was: step
    3 and the previous prospect's record, not a fresh step 1. *)
Theorem start_over_after_generate :
  let shown := handle scenario_env click_generate scenario_session in
  In (button (lit "Start Over (new prospect)")) shown.2 /\
  (handle scenario_env click_start_over shown.1).1 = scenario_session /\
  step scenario_session = Some 3 /\
  responses scenario_session = Some scenario_expected /\
  (handle scenario_env click_start_over shown.1).2 =
    [subheader (lit "Step 3: Review Your Responses")].
Proof.
  cbv zeta. split; [|split; [|split; [|split]]].
  - vm_compute. do 4 right. left. reflexivity.
  - vm_compute. reflexivity.
  - vm_compute. reflexivity.
  - vm_compute. reflexivity.
  - vm_compute. reflexivity.
Qed.

(** ** The renderer and the clock *)










(** * Further properties of the code *)

(** ** Normalising a contact detail *)

Lemma rstrip_prefix (s : pystr) : exists ws, s = rstrip s ++ ws /\ blank ws = true.
Proof.
  destruct (lstrip_suffix (rev s)) as [ws [H Hb]].
  exists (rev ws). split; [|now rewrite blank_rev].
  unfold rstrip. apply (f_equal (@rev N)) in H.
  now rewrite rev_involutive, rev_app_distr in H.
Qed.

Lemma strip_trimmed (s : pystr) : strip s <> [] -> trimmed (strip s).
Proof.
  intros Hne. split; [exact Hne|]. split.
  - intros c t Hs. unfold strip in Hs.
    destruct (rstrip_prefix (lstrip s)) as [ws [Hl _]].
    rewrite Hs in Hl. simpl in Hl. now apply lstrip_head in Hl.
  - intros t c Hs. unfold strip, rstrip in Hs.
    apply (f_equal (@rev N)) in Hs.
    rewrite rev_involutive, rev_app_distr in Hs. simpl in Hs.
    now apply lstrip_head in Hs.
Qed.

Lemma lstrip_fixed (s : pystr) :
  (forall c t, s = c :: t -> py_isspace c = false) -> lstrip s = s.
Proof.
  destruct s as [|c t]; [reflexivity|]. intros H. simpl.
  now rewrite (H c t eq_refl).
Qed.

Lemma strip_fixed (s : pystr) : trimmed s -> strip s = s.
Proof.
  intros (_ & Hhead & Hlast). unfold strip. rewrite (lstrip_fixed s Hhead).
  unfold rstrip. rewrite lstrip_fixed; [apply rev_involutive|].
  intros c t Hs. apply (Hlast (rev t) c).
  apply (f_equal (@rev N)) in Hs. now rewrite rev_involutive in Hs.
Qed.

Lemma strip_or_none_contact (text : pystr) : contact_value (strip_or_none text).
Proof.
  rewrite strip_or_none_spec. destruct (blank text) eqn:Hb; [now left|].
  right. exists (strip text). split; [reflexivity|].
  apply strip_trimmed. intros Hs. apply strip_nil in Hs. congruence.
Qed.

(** X1: the conditional of lines 139 and 140 yields either [None], and
    then the text was empty or all whitespace, or a text that is not
    empty and has no whitespace at either end; normalising that stored
    text again returns it unchanged. *)
Theorem strip_or_none_normal (text : pystr) :
  (strip_or_none text = PNone /\ blank text = true) \/
  (exists s : pystr,
     strip_or_none text = PStr s /\ blank text = false /\
     trimmed s /\ strip_or_none s = PStr s).
Proof.
  rewrite strip_or_none_spec. destruct (blank text) eqn:Hb; [now left|].
  right. exists (strip text). split; [reflexivity|]. split; [reflexivity|].
  assert (Hne : strip text <> []).
  { intros Hs. apply strip_nil in Hs. congruence. }
  assert (Ht : trimmed (strip text)) by now apply strip_trimmed.
  split; [exact Ht|].
  rewrite strip_or_none_spec.
  destruct (blank (strip text)) eqn:Hb'.
  - apply strip_nil in Hb'. rewrite (strip_fixed _ Ht) in Hb'. contradiction.
  - now rewrite (strip_fixed _ Ht).
Qed.

(** ** Shape of the record *)

Arguments update : simpl never.

Lemma update_lookup_value (items : list (string * PyVal)) (d : dict)
    (key : string) (v : PyVal) :
  update d items !! key = Some v -> In (key, v) items \/ d !! key = Some v.
Proof.
  revert d. induction items as [|[k x] items IH]; intros d H; [now right|].
  rewrite update_cons in H. apply IH in H as [H|H]; [left; now right|].
  destruct (decide (k = key)) as [->|Hne].
  - rewrite lookup_insert_eq in H. injection H as ->. left. now left.
  - rewrite lookup_insert_ne in H by exact Hne. now right.
Qed.

Lemma record_inv_default (ss : SessionState) :
  record_inv ss ->
  record_inv (mkSession (step ss) (Some (default ∅ (responses ss)))).
Proof.
  intros Hinv resp [= <-]. destruct (responses ss) as [r|] eqn:Hr; cbn.
  - now apply Hinv.
  - repeat split; intros; rewrite lookup_empty in *;
      try discriminate; exfalso; eapply is_Some_None; eassumption.
Qed.

Lemma step1_items_keys (w : Widgets) (key : string) (v : PyVal) :
  In (key, v) (step1_items w) -> In key step1_fields.
Proof.
  intros H. apply (in_map fst) in H. exact H.
Qed.

Lemma step2_items_keys (w : Widgets) (key : string) (v : PyVal) :
  In (key, v) (step2_items w) -> In key step2_fields.
Proof.
  intros H. apply (in_map fst) in H. exact H.
Qed.

Lemma step1_not_step2 (key : string) :
  In key step1_fields -> In key step2_fields -> False.
Proof.
  simpl. intros [<-|[<-|[<-|[]]]] [H|[H|[H|[H|[H|[]]]]]]; discriminate.
Qed.

(** The value under a key after the step-1 update. *)
Lemma step1_items_value (w : Widgets) (key : string) (v : PyVal) :
  In (key, v) (step1_items w) ->
  (In key text_fields /\ exists s, v = PStr s) \/
  (key = "complexity"%string /\ exists n, v = PInt n).
Proof.
  simpl. intros [H|[H|[H|[]]]]; injection H as <- <-; simpl; eauto 8.
Qed.

(** The value under a key after the step-2 update. *)
Lemma step2_items_value (w : Widgets) (key : string) (v : PyVal) :
  In (key, v) (step2_items w) ->
  (In key text_fields /\ exists s, v = PStr s) \/
  ((key = "email"%string \/ key = "phone"%string) /\ contact_value v) \/
  (key = "interest_confirm"%string /\ exists b, v = PBool b).
Proof.
  simpl. intros [H|[H|[H|[H|[H|[]]]]]]; injection H as <- <-; simpl;
    eauto 10 using strip_or_none_contact.
Qed.

Lemma transition_record_inv (ss ss' : SessionState) (w : Widgets) :
  transition ss w ss' -> record_inv ss -> record_inv ss'.
Proof.
  intros T Hinv resp Hr.
  destruct (record_inv_default ss Hinv _ eq_refl)
    as (Hkeys & Hstep2 & Htxt & Hcx & Hem & Hph).
  cbn [step] in Hstep2.
  destruct T as [|H1|Hb|H2|]; cbn [responses step] in *; try discriminate;
    injection Hr as <-.
  - repeat split; try assumption.
    intros key Hk Hsome. now rewrite (Hstep2 key Hk Hsome).
  - apply submits_step1_inv in H1 as [H1 _].
    repeat split.
    + intros key [v Hv].
      apply (update_lookup_value (step1_items w)) in Hv as [Hv|Hv].
      * apply in_or_app. left. now apply (step1_items_keys w key v).
      * apply Hkeys. eauto.
    + intros key Hk [v Hv].
      apply (update_lookup_value (step1_items w)) in Hv as [Hv|Hv].
      * exfalso. apply (step1_not_step2 key); [|exact Hk].
        now apply (step1_items_keys w key v).
      * rewrite (Hstep2 key Hk (ex_intro _ v Hv)) in H1. discriminate.
    + intros key v Hk Hv.
      apply (update_lookup_value (step1_items w)) in Hv as [Hv|Hv]; [|eauto].
      apply step1_items_value in Hv as [[_ Hv]|[-> _]]; [exact Hv|].
      simpl in Hk. destruct Hk as [H|[H|[H|[H|[]]]]]; discriminate.
    + intros v Hv.
      apply (update_lookup_value (step1_items w)) in Hv as [Hv|Hv]; [|eauto].
      apply step1_items_value in Hv as [[Hk _]|[_ Hv]]; [|exact Hv].
      simpl in Hk. destruct Hk as [H|[H|[H|[H|[]]]]]; discriminate.
    + intros v Hv.
      apply (update_lookup_value (step1_items w)) in Hv as [Hv|Hv]; [|eauto].
      apply step1_items_keys in Hv. simpl in Hv.
      destruct Hv as [H|[H|[H|[]]]]; discriminate.
    + intros v Hv.
      apply (update_lookup_value (step1_items w)) in Hv as [Hv|Hv]; [|eauto].
      apply step1_items_keys in Hv. simpl in Hv.
      destruct Hv as [H|[H|[H|[]]]]; discriminate.
  - repeat split; try assumption.
    intros key Hk Hsome. rewrite (Hstep2 key Hk Hsome) in Hb. discriminate.
  - repeat split.
    + intros key [v Hv].
      apply (update_lookup_value (step2_items w)) in Hv as [Hv|Hv].
      * apply in_or_app. right. now apply (step2_items_keys w key v).
      * apply Hkeys. eauto.
    + intros key v Hk Hv.
      apply (update_lookup_value (step2_items w)) in Hv as [Hv|Hv]; [|eauto].
      apply step2_items_value in Hv as [[_ Hv]|[[[-> | ->] _]|[-> _]]];
        [exact Hv|..]; simpl in Hk;
        destruct Hk as [H|[H|[H|[H|[]]]]]; discriminate.
    + intros v Hv.
      apply (update_lookup_value (step2_items w)) in Hv as [Hv|Hv]; [|eauto].
      apply step2_items_keys in Hv. simpl in Hv.
      destruct Hv as [H|[H|[H|[H|[H|[]]]]]]; discriminate.
    + intros v Hv.
      apply (update_lookup_value (step2_items w)) in Hv as [Hv|Hv]; [|eauto].
      apply step2_items_value in Hv as [[Hk _]|[[_ Hv]|[H _]]];
        [|exact Hv|discriminate].
      simpl in Hk. destruct Hk as [H|[H|[H|[H|[]]]]]; discriminate.
    + intros v Hv.
      apply (update_lookup_value (step2_items w)) in Hv as [Hv|Hv]; [|eauto].
      apply step2_items_value in Hv as [[Hk _]|[[_ Hv]|[H _]]];
        [|exact Hv|discriminate].
      simpl in Hk. destruct Hk as [H|[H|[H|[H|[]]]]]; discriminate.
Qed.

Lemma record_inv_reachable (runs : list (Env * Widgets)) :
  record_inv (run_all runs empty_session).
Proof.
  induction runs as [|r runs IH] using rev_ind.
  - intros ? H. discriminate.
  - rewrite run_all_snoc. eapply transition_record_inv;
      [apply script_transition|exact IH].
Qed.

(** X2: in every state reachable from a fresh session, whatever the
    widgets return, the record has no key outside the eight fields of
    the data model, and it has a step-2 key only when the step indicator
    is 3. *)
Theorem record_keys_follow_steps (runs : list (Env * Widgets)) (resp : dict) (key : string) :
  responses (run_all runs empty_session) = Some resp ->
  is_Some (resp !! key) ->
  In key all_fields /\
  (In key step2_fields -> step (run_all runs empty_session) = Some 3).
Proof.
  intros Hr Hsome.
  destruct (record_inv_reachable runs resp Hr) as (Hkeys & Hstep2 & _).
  split; [now apply Hkeys|]. intros Hk. now apply (Hstep2 key).
Qed.

Lemma record_keys_follow_steps_witness :
  responses (run_all scenario_runs empty_session) = Some scenario_record /\
  is_Some (scenario_record !! "email"%string) /\
  In "email"%string all_fields /\
  step (run_all scenario_runs empty_session) = Some 3.
Proof.
  assert (Hr : responses (run_all scenario_runs empty_session) = Some scenario_record)
    by (vm_compute; reflexivity).
  assert (Hs : is_Some (scenario_record !! "email"%string))
    by (exists PNone; vm_compute; reflexivity).
  destruct (record_keys_follow_steps scenario_runs scenario_record "email" Hr Hs)
    as [Hk H3].
  refine (conj Hr (conj Hs (conj Hk (H3 _)))).
  simpl. tauto.
Defined.

(** X3: in every reachable state the record is well typed: what it
    holds under [situation], [timeline], [main_concern] and
    [contact_pref] is a [str] (never [None]), under [complexity] an
    [int], and under [email] or [phone] either [None] or a text that is
    not empty and has no whitespace at either end. *)
Theorem stored_values_are_typed (runs : list (Env * Widgets)) (resp : dict) :
  responses (run_all runs empty_session) = Some resp ->
  (forall key v, In key text_fields -> resp !! key = Some v -> exists s, v = PStr s) /\
  (forall v, resp !! "complexity"%string = Some v -> exists n, v = PInt n) /\
  (forall v, resp !! "email"%string = Some v -> contact_value v) /\
  (forall v, resp !! "phone"%string = Some v -> contact_value v).
Proof.
  intros Hr.
  destruct (record_inv_reachable runs resp Hr) as (_ & _ & Htxt & Hcx & Hem & Hph).
  now repeat split.
Qed.

Lemma stored_values_are_typed_witness :
  responses (run_all scenario_runs empty_session) = Some scenario_record /\
  contact_value (PStr (lit "555-1234")) /\ contact_value PNone.
Proof.
  assert (Hr : responses (run_all scenario_runs empty_session) = Some scenario_record)
    by (vm_compute; reflexivity).
  destruct (stored_values_are_typed scenario_runs scenario_record Hr)
    as (_ & _ & Hem & Hph).
  refine (conj Hr (conj (Hph _ _) (Hem _ _))); vm_compute; reflexivity.
Defined.

Lemma transition_valid_choices (ss ss' : SessionState) (w : Widgets) :
  valid_widgets w -> transition ss w ss' -> valid_choices ss -> valid_choices ss'.
Proof.
  intros (Hsit & Htl & Hcx & Hcp) T Hinv resp Hr.
  assert (H0 : valid_choices (mkSession None (Some (default ∅ (responses ss))))).
  { intros r [= <-]. destruct (responses ss) as [r0|] eqn:Hr0; cbn.
    - now apply Hinv.
    - repeat split; intros v Hv; rewrite lookup_empty in Hv; discriminate. }
  destruct (H0 _ eq_refl) as (Vsit & Vtl & Vcx & Vcp).
  destruct T as [|H1|Hb|H2|]; cbn [responses step] in *; try discriminate;
    injection Hr as <-; try (now repeat split).
  - repeat split; intros v Hv;
      apply (update_lookup_value (step1_items w)) in Hv as [Hv|Hv]; eauto;
      simpl in Hv; destruct Hv as [Hv|[Hv|[Hv|[]]]];
      try discriminate Hv; injection Hv as <-; eauto.
  - repeat split; intros v Hv;
      apply (update_lookup_value (step2_items w)) in Hv as [Hv|Hv]; eauto;
      simpl in Hv; destruct Hv as [Hv|[Hv|[Hv|[Hv|[Hv|[]]]]]];
      try discriminate Hv; injection Hv as <-; eauto.
Qed.

(** X4: when on every run the widgets return what the form offers (an
    option of each select box and radio, a slider value from 1 to 5),
    every reachable record holds, under [situation], [timeline],
    [complexity] and [contact_pref], one of the offered options and a
    complexity from 1 to 5. *)
Theorem stored_choices_are_offered (runs : list (Env * Widgets)) :
  Forall (fun r => valid_widgets r.2) runs ->
  valid_choices (run_all runs empty_session).
Proof.
  induction runs as [|r runs IH] using rev_ind; intros Hall.
  - intros ? H. discriminate.
  - apply Forall_app in Hall as [Hruns Hr]. inversion Hr; subst.
    rewrite run_all_snoc. eapply transition_valid_choices;
      [eassumption|apply script_transition|now apply IH].
Qed.

Lemma stored_choices_are_offered_witness :
  Forall (fun r : Env * Widgets => valid_widgets r.2) scenario_runs /\
  valid_choices (run_all scenario_runs empty_session).
Proof.
  assert (Hall : Forall (fun r : Env * Widgets => valid_widgets r.2) scenario_runs).
  { unfold scenario_runs, scenario_actions. cbn [map].
    apply List.Forall_cons; [|apply List.Forall_cons; [|apply List.Forall_nil]];
      unfold valid_widgets;
      cbn [snd widgets_of situation timeline complexity contact_pref];
      (split; [|split; [|split]]); try (left; reflexivity);
      unfold default_complexity; lia. }
  exact (conj Hall (stored_choices_are_offered scenario_runs Hall)).
Defined.

(** ** What user actions can do *)

Lemma handle_initialised (env : Env) (ev : Event) (ss : SessionState) :
  exists (n : Z) (resp : dict), (handle env ev ss).1 = mkSession (Some n) (Some resp).
Proof.
  unfold handle.
  destruct (script_transition env (widgets_of ev) ss) as [| | | |_ Hg Ho]; eauto.
  pose proof (widgets_of_one_button ev) as Hb. rewrite Hg, Ho in Hb. discriminate.
Qed.


Lemma play_snoc (actions : list (Env * Event)) (a : Env * Event) (ss : SessionState) :
  play (actions ++ [a]) ss = (handle a.1 a.2 (play actions ss)).1.
Proof. unfold play. now rewrite foldl_snoc. Qed.

Lemma handle_at_step3 (env : Env) (ev : Event) (resp : dict) :
  (handle env ev (mkSession (Some 3) (Some resp))).1 = mkSession (Some 3) (Some resp).
Proof.
  unfold handle, script. cbn -[create_summary_pdf summary_text lit widgets_of].
  destruct ev; cbn [widgets_of generate start_over fst]; try reflexivity.
  now destruct (create_summary_pdf _ _ _).
Qed.

Lemma page_load_idle (env : Env) (n : Z) (resp : dict) :
  (handle env page_load (mkSession (Some n) (Some resp))).1
  = mkSession (Some n) (Some resp).
Proof.
  unfold handle, script.
  cbn -[create_summary_pdf summary_text lit Z.eqb].
  repeat match goal with
         | |- context [if ?b then _ else _] => destruct b
         end; reflexivity.
Qed.

(** X6: step 3 is final.  From a session at step 3 no sequence of user
    actions changes the step indicator or the record: the answers can
    no longer be edited, and no action leads back to step 1. *)
Theorem step3_is_final (actions : list (Env * Event)) (ss : SessionState) (resp : dict) :
  step ss = Some 3 -> responses ss = Some resp ->
  play actions ss = ss.
Proof.
  destruct ss as [st rs]. cbn [step responses]. intros -> ->.
  induction actions as [|a actions IH] using rev_ind; [reflexivity|].
  now rewrite play_snoc, IH, handle_at_step3.
Qed.

Lemma step3_is_final_witness :
  let actions :=
    [ (scenario_env, click_generate); (scenario_env, click_start_over);
      (scenario_env, click_back);
      (scenario_env, click_continue default_situation default_timeline 1);
      (scenario_env, click_download) ] in
  step scenario_session = Some 3 /\
  responses scenario_session = Some scenario_record /\
  play actions scenario_session = scenario_session.
Proof.
  intros actions.
  assert (H3 : step scenario_session = Some 3) by (vm_compute; reflexivity).
  assert (Hr : responses scenario_session = Some scenario_record)
    by (vm_compute; reflexivity).
  exact (conj H3 (conj Hr (step3_is_final actions scenario_session scenario_record H3 Hr))).
Defined.

(** X7: the rerun that follows a user action is idle.  Whatever the
    action and the state it was made in, running the script again with
    no button pressed returns the state the action left. *)
Theorem rerun_is_idle (env env' : Env) (ev : Event) (ss : SessionState) :
  (handle env' page_load (handle env ev ss).1).1 = (handle env ev ss).1.
Proof.
  destruct (handle_initialised env ev ss) as (n & resp & ->).
  apply page_load_idle.
Qed.

(** X8: after at least one user action on a fresh session, the step
    indicator is 1, 2 or 3 and the record exists. *)
Theorem step_stays_in_range (actions : list (Env * Event)) :
  actions <> [] ->
  exists (n : Z) (resp : dict),
    play actions empty_session = mkSession (Some n) (Some resp) /\ 1 <= n <= 3.
Proof.
  assert (Hrange : forall acts,
            match step (play acts empty_session) with
            | Some n => 1 <= n <= 3
            | None => True
            end).
  { induction acts as [|a acts IH] using rev_ind; [exact I|].
    rewrite play_snoc. unfold handle.
    destruct (script_transition a.1 (widgets_of a.2) (play acts empty_session))
      as [|H1|Hb|H2|]; cbn [step]; try lia; try exact I.
    destruct (step (play acts empty_session)); cbn; lia. }
  intros Hne. specialize (Hrange actions).
  destruct actions as [|a actions _] using rev_ind; [contradiction|].
  rewrite play_snoc in *.
  destruct (handle_initialised a.1 a.2 (play actions empty_session)) as (n & resp & E).
  rewrite E in *. eauto.
Qed.

Lemma step_stays_in_range_witness :
  scenario_actions <> [] /\
  exists (n : Z) (resp : dict),
    play scenario_actions empty_session = mkSession (Some n) (Some resp) /\ 1 <= n <= 3.
Proof.
  assert (Hne : scenario_actions <> []) by discriminate.
  exact (conj Hne (step_stays_in_range scenario_actions Hne)).
Defined.

(** ** The summary and the review *)

Lemma py_or_text (s dflt : pystr) :
  py_str (py_or (PStr s) (PStr dflt)) = match s with [] => dflt | _ => s end.
Proof. now destruct s. Qed.

Lemma py_or_contact (text dflt : pystr) :
  py_str (py_or (strip_or_none text) (PStr dflt)) =
  if blank text then dflt else strip text.
Proof.
  rewrite strip_or_none_spec. destruct (blank text) eqn:Hb; [reflexivity|].
  rewrite py_or_text. destruct (strip text) eqn:Hs; [|reflexivity].
  apply strip_nil in Hs. congruence.
Qed.

Lemma get_lookup (resp : dict) (key : string) (v : PyVal) :
  resp !! key = Some v -> get resp key = v.
Proof. unfold get. now intros ->. Qed.

(** X9: from answers to summary.  When the record holds the step-1
    answers and step 2 is submitted with the box checked, the summary
    text for the resulting record is the seven labelled lines: the
    three step-1 answers, the main concern as typed, or "None provided"
    when it is empty, the contact preference, and for email and phone
    the stripped input, or "Not provided" when it is blank. *)
Theorem summary_from_answers
    (env : Env) (ss : SessionState) (sit tl : pystr) (cx : Z) (mc cp em ph : pystr) :
  step ss = Some 2 -> keeps_step1 sit tl cx ss ->
  exists resp' : dict,
    (handle env (click_submit mc cp em ph true) ss).1 = mkSession (Some 3) (Some resp') /\
    summary_text resp' = summary_of sit tl cx mc cp em ph.
Proof.
  destruct ss as [st rs]. cbn [step]. intros -> (resp & Hr & Hsit & Htl & Hcx).
  cbn [responses] in Hr. subst rs.
  eexists. split; [reflexivity|].
  set (w := widgets_of (click_submit mc cp em ph true)).
  cbn [default from_option id].
  change (summary_text (update resp (step2_items w)) = summary_of sit tl cx mc cp em ph).
  assert (Hold : forall key, In key step1_fields ->
            update resp (step2_items w) !! key = resp !! key).
  { intros key Hk. apply update_lookup_other. intros Hin.
    now apply (step1_not_step2 key). }
  unfold summary_text, summary_lines, summary_of.
  rewrite (get_lookup _ "situation" (PStr sit))
    by (rewrite Hold; [exact Hsit|simpl; tauto]).
  rewrite (get_lookup _ "timeline" (PStr tl))
    by (rewrite Hold; [exact Htl|simpl; tauto]).
  rewrite (get_lookup _ "complexity" (PInt cx))
    by (rewrite Hold; [exact Hcx|simpl; tauto]).
  rewrite (get_lookup _ "main_concern" (PStr mc))
    by (unfold update, step2_items; cbn [foldl fst snd];
        now rewrite !lookup_insert_ne, lookup_insert_eq by discriminate).
  rewrite (get_lookup _ "contact_pref" (PStr cp))
    by (unfold update, step2_items; cbn [foldl fst snd];
        now rewrite !lookup_insert_ne, lookup_insert_eq by discriminate).
  rewrite (get_lookup _ "email" (strip_or_none em))
    by (unfold update, step2_items; cbn [foldl fst snd];
        now rewrite !lookup_insert_ne, lookup_insert_eq by discriminate).
  rewrite (get_lookup _ "phone" (strip_or_none ph))
    by (unfold update, step2_items; cbn [foldl fst snd];
        now rewrite !lookup_insert_ne, lookup_insert_eq by discriminate).
  now rewrite py_or_text, !py_or_contact.
Qed.

Lemma summary_from_answers_witness :
  let ss := (handle scenario_env
               (click_continue default_situation default_timeline 4) empty_session).1 in
  step ss = Some 2 /\
  keeps_step1 default_situation default_timeline 4 ss /\
  exists resp' : dict,
    (handle scenario_env
       (click_submit [] (lit "Email") (lit "  ") (lit " 555-1234") true) ss).1
      = mkSession (Some 3) (Some resp') /\
    summary_text resp' =
      summary_of default_situation default_timeline 4
        [] (lit "Email") (lit "  ") (lit " 555-1234").
Proof.
  intros ss.
  assert (H2 : step ss = Some 2) by (vm_compute; reflexivity).
  assert (Hk : keeps_step1 default_situation default_timeline 4 ss).
  { eexists. split; [reflexivity|]. repeat split; vm_compute; reflexivity. }
  exact (conj H2 (conj Hk
           (summary_from_answers scenario_env ss default_situation default_timeline 4
              [] (lit "Email") (lit "  ") (lit " 555-1234") H2 Hk))).
Defined.

Lemma narrow_join_line (sep : pystr) (lines : list pystr) (line : pystr) :
  In line lines -> narrow line = false -> narrow (join sep lines) = false.
Proof.
  induction lines as [|l lines IH]; [intros []|].
  intros [->|Hin] Hn.
  - destruct lines; simpl; [exact Hn|]. now rewrite narrow_app, Hn.
  - destruct lines as [|l' lines]; [destruct Hin|].
    change (join sep (l :: l' :: lines)) with (l ++ sep ++ join sep (l' :: lines)).
    rewrite !narrow_app, (IH Hin Hn). now rewrite !andb_false_r.
Qed.

Lemma narrow_false_nonempty (s : pystr) : narrow s = false -> s <> [].
Proof. now intros H ->. Qed.

(** A stored text with a character outside Latin-1 makes the summary
    text hold one. *)
Lemma summary_text_wide (resp : dict) (key : string) (s : pystr) :
  In key ["situation"; "timeline"; "main_concern"; "contact_pref"; "email"; "phone"]%string ->
  resp !! key = Some (PStr s) -> narrow s = false ->
  narrow (summary_text resp) = false.
Proof.
  intros Hk Hv Hn. unfold summary_text.
  assert (Hor : forall dflt, py_str (py_or (PStr s) (PStr dflt)) = s).
  { intros dflt. rewrite py_or_text. destruct s; [discriminate|reflexivity]. }
  simpl in Hk.
  destruct Hk as [<-|[<-|[<-|[<-|[<-|[<-|[]]]]]]];
    apply get_lookup in Hv.
  - apply (narrow_join_line _ _ (lit "Reason for reaching out: " ++ s));
      [unfold summary_lines; rewrite Hv; simpl; tauto|].
    now rewrite narrow_app, Hn, andb_false_r.
  - apply (narrow_join_line _ _ (lit "Timeline: " ++ s));
      [unfold summary_lines; rewrite Hv; simpl; tauto|].
    now rewrite narrow_app, Hn, andb_false_r.
  - apply (narrow_join_line _ _ (lit "Main concern: " ++ s));
      [unfold summary_lines; rewrite Hv, Hor; simpl; tauto|].
    now rewrite narrow_app, Hn, andb_false_r.
  - apply (narrow_join_line _ _ (lit "Preferred contact: " ++ s));
      [unfold summary_lines; rewrite Hv; simpl; tauto|].
    now rewrite narrow_app, Hn, andb_false_r.
  - apply (narrow_join_line _ _ (lit "Email: " ++ s));
      [unfold summary_lines; rewrite Hv, Hor; simpl; tauto|].
    now rewrite narrow_app, Hn, andb_false_r.
  - apply (narrow_join_line _ _ (lit "Phone: " ++ s));
      [unfold summary_lines; rewrite Hv, Hor; simpl; tauto|].
    now rewrite narrow_app, Hn, andb_false_r.
Qed.

Lemma rendered_wide (env : Env) (summary today : pystr) :
  narrow summary = false ->
  create_summary_pdf env summary today = Raise UnicodeEncodeError.
Proof.
  intros Hn.
  destruct (create_summary_pdf_cases env summary today) as [[_ H]|[Hs _]];
    [exact H|].
  rewrite Hn, andb_false_r in Hs. discriminate.
Qed.

(** X10: an answer with a character outside Latin-1 makes Generate
    fail.  At step 3, when the record holds such a text under one of
    the six text keys, [pdf.output] raises and the run ends with the
    uncaught [UnicodeEncodeError]: no success message, no download
    button, and the session is left as it was. *)
Theorem generate_fails_on_wide_answer
    (env : Env) (ss : SessionState) (resp : dict) (key : string) (s : pystr) :
  step ss = Some 3 -> responses ss = Some resp ->
  In key ["situation"; "timeline"; "main_concern"; "contact_pref"; "email"; "phone"]%string ->
  resp !! key = Some (PStr s) -> narrow s = false ->
  handle env click_generate ss =
    (ss, [subheader (lit "Step 3: Review Your Responses"); uncaught UnicodeEncodeError]).
Proof.
  destruct ss as [st rs]. cbn [step responses]. intros -> -> Hk Hv Hn.
  unfold handle, script. cbn -[create_summary_pdf summary_text lit].
  now rewrite (rendered_wide env _ _ (summary_text_wide resp key s Hk Hv Hn)).
Qed.

Lemma generate_fails_on_wide_answer_witness :
  let option6 := lit "Not sure yet " ++ en_dash ++ lit " want to discuss options" in
  let resp : dict := update ∅ [("situation"%string, PStr option6)] in
  let ss := mkSession (Some 3) (Some resp) in
  In option6 situation_options /\
  narrow option6 = false /\
  handle scenario_env click_generate ss =
    (ss, [subheader (lit "Step 3: Review Your Responses"); uncaught UnicodeEncodeError]).
Proof.
  intros option6 resp ss.
  assert (Hopt : In option6 situation_options) by (do 5 right; left; reflexivity).
  assert (Hn : narrow option6 = false) by (vm_compute; reflexivity).
  assert (Hk : In "situation"%string
                 ["situation"; "timeline"; "main_concern"; "contact_pref"; "email"; "phone"]%string)
    by (left; reflexivity).
  assert (Hv : resp !! "situation"%string = Some (PStr option6))
    by (vm_compute; reflexivity).
  exact (conj Hopt (conj Hn
           (generate_fails_on_wide_answer scenario_env ss resp "situation" option6
              eq_refl eq_refl Hk Hv Hn))).
Defined.

(** X11: at step 3 of any reachable state the review text is built
    from stored values only: each of the seven keys it reads has a
    value, so the placeholders of [resp.get(key, default)] are never
    shown.  The main concern is shown as stored, an empty one as an
    empty line, where the PDF summary prints "None provided". *)
Theorem review_shows_stored (runs : list (Env * Widgets)) (resp : dict) :
  step (run_all runs empty_session) = Some 3 ->
  responses (run_all runs empty_session) = Some resp ->
  exists (sit tl : pystr) (cx : Z) (mc cp : pystr) (em ph : PyVal),
    resp !! "situation"%string = Some (PStr sit) /\
    resp !! "timeline"%string = Some (PStr tl) /\
    resp !! "complexity"%string = Some (PInt cx) /\
    resp !! "main_concern"%string = Some (PStr mc) /\
    resp !! "contact_pref"%string = Some (PStr cp) /\
    resp !! "email"%string = Some em /\
    resp !! "phone"%string = Some ph /\
    review_markdown resp = review_of sit tl cx mc cp em ph.
Proof.
  intros H3 Hr.
  destruct (proj2 (wizard_inv_reachable runs) H3) as (_ & _ & (r & Hr' & Hf) & _).
  rewrite Hr in Hr'. injection Hr' as <-.
  destruct (record_inv_reachable runs resp Hr) as (_ & _ & Htxt & Hcx & _).
  assert (Hin : forall key, In key all_fields -> exists v, resp !! key = Some v).
  { intros key Hk. destruct (Hf key Hk) as [v Hv]. eauto. }
  destruct (Hin "situation"%string) as [v1 H1]; [simpl; tauto|].
  destruct (Hin "timeline"%string) as [v2 H2]; [simpl; tauto|].
  destruct (Hin "complexity"%string) as [v3 H3']; [simpl; tauto|].
  destruct (Hin "main_concern"%string) as [v4 H4]; [simpl; tauto|].
  destruct (Hin "contact_pref"%string) as [v5 H5]; [simpl; tauto|].
  destruct (Hin "email"%string) as [em Hem]; [simpl; tauto|].
  destruct (Hin "phone"%string) as [ph Hph]; [simpl; tauto|].
  destruct (Htxt "situation"%string _ ltac:(simpl; tauto) H1) as [sit ->].
  destruct (Htxt "timeline"%string _ ltac:(simpl; tauto) H2) as [tl ->].
  destruct (Hcx _ H3') as [cx ->].
  destruct (Htxt "main_concern"%string _ ltac:(simpl; tauto) H4) as [mc ->].
  destruct (Htxt "contact_pref"%string _ ltac:(simpl; tauto) H5) as [cp ->].
  exists sit, tl, cx, mc, cp, em, ph.
  repeat (split; [assumption|]).
  unfold review_markdown, review_of, get_or.
  rewrite H1, H2, H3', H4, H5, (get_lookup _ _ _ Hem), (get_lookup _ _ _ Hph).
  reflexivity.
Qed.

Lemma review_shows_stored_witness :
  step (run_all scenario_runs empty_session) = Some 3 /\
  responses (run_all scenario_runs empty_session) = Some scenario_record /\
  exists (sit tl : pystr) (cx : Z) (mc cp : pystr) (em ph : PyVal),
    scenario_record !! "main_concern"%string = Some (PStr mc) /\
    scenario_record !! "contact_pref"%string = Some (PStr cp) /\
    review_markdown scenario_record = review_of sit tl cx mc cp em ph.
Proof.
  assert (H3 : step (run_all scenario_runs empty_session) = Some 3)
    by (vm_compute; reflexivity).
  assert (Hr : responses (run_all scenario_runs empty_session) = Some scenario_record)
    by (vm_compute; reflexivity).
  destruct (review_shows_stored scenario_runs scenario_record H3 Hr)
    as (sit & tl & cx & mc & cp & em & ph & _ & _ & _ & Hmc & Hcp & _ & _ & Hrev).
  refine (conj H3 (conj Hr _)). exists sit, tl, cx, mc, cp, em, ph. now repeat split.
Defined.

(** ** The bytes and the page *)

Lemma encode_latin1_decodes (s : pystr) (bs : list byte) :
  encode_latin1 s = Return bs -> map Byte.to_N bs = s.
Proof.
  revert bs. induction s as [|c s IH]; intros bs; simpl.
  - now intros [= <-].
  - destruct (Byte.of_N c) as [b|] eqn:Hb; [|discriminate].
    destruct (encode_latin1 s) as [bs'|] eqn:Hs; [|discriminate].
    cbn. intros [= <-]. simpl. apply Byte.to_of_N in Hb.
    now rewrite Hb, (IH bs' eq_refl).
Qed.

(** X12: whenever [create_summary_pdf] returns, the buffer it returns
    decodes, byte by byte, to the document that [pdf.output] produced:
    nothing is dropped, replaced or reordered; the buffer has one byte
    per character and is positioned at its start. *)
Theorem pdf_bytes_round_trip (env : Env) (summary today : pystr) (pdf : BytesIO) :
  create_summary_pdf env summary today = Return pdf ->
  map Byte.to_N (getvalue pdf) = rendered env summary today /\
  length (getvalue pdf) = length (rendered env summary today) /\
  tell pdf = 0.
Proof.
  rewrite create_summary_pdf_unfold.
  destruct (narrow today && narrow summary); [|discriminate].
  destruct (encode_latin1 (rendered env summary today)) as [bs|] eqn:Hbs; [|discriminate].
  intros [= <-]. cbn [getvalue tell].
  apply encode_latin1_decodes in Hbs.
  split; [exact Hbs|]. split; [|reflexivity].
  now rewrite <- Hbs, length_map.
Qed.

Lemma pdf_bytes_round_trip_witness :
  exists pdf : BytesIO,
    create_summary_pdf scenario_env scenario_summary (today_str scenario_env) = Return pdf /\
    map Byte.to_N (getvalue pdf) =
      rendered scenario_env scenario_summary (today_str scenario_env).
Proof.
  destruct (create_summary_pdf scenario_env scenario_summary (today_str scenario_env))
    as [pdf|e] eqn:E; [|vm_compute in E; discriminate].
  exists pdf. split; [reflexivity|].
  exact (proj1 (pdf_bytes_round_trip scenario_env scenario_summary
                  (today_str scenario_env) pdf E)).
Defined.

Lemma join_line (sep : pystr) (lines : list pystr) (line : pystr) :
  In line lines -> exists before rest, join sep lines = before ++ line ++ rest.
Proof.
  induction lines as [|l lines IH]; [intros []|].
  intros [->|Hin].
  - destruct lines as [|l' lines].
    + exists [], []. simpl. now rewrite app_nil_r.
    + now exists [], (sep ++ join sep (l' :: lines)).
  - destruct lines as [|l' lines]; [destruct Hin|].
    destruct (IH Hin) as (before & rest & E).
    exists (l ++ sep ++ before), rest.
    change (join sep (l :: l' :: lines)) with (l ++ sep ++ join sep (l' :: lines)).
    rewrite E. now rewrite <- !app_assoc.
Qed.

Lemma body_text_split (today : pystr) :
  exists pre post, forall summary, body_text summary today = pre ++ summary ++ post.
Proof.
  exists (nl ++ lit "Date: " ++ today ++ nl ++ nl
          ++ lit "This is a preliminary summary from the initial interest form." ++ nl
          ++ nl ++ lit "Summary of responses:" ++ nl).
  eexists. intros summary. unfold body_text.
  rewrite <- !app_assoc. reflexivity.
Qed.

(** X13: the text that [create_summary_pdf] hands to [multi_cell]
    contains the line "Date: " followed by the date argument and,
    verbatim, every line of the summary built from the record. *)
Theorem page_body_carries_summary (resp : dict) (today line : pystr) :
  In line (summary_lines resp) ->
  In (multi_cell 0 8 (body_text (summary_text resp) today))
     (pdf_calls (summary_text resp) today) /\
  contains (body_text (summary_text resp) today) (lit "Date: " ++ today ++ nl) = true /\
  contains (body_text (summary_text resp) today) line = true.
Proof.
  intros Hin. split; [unfold pdf_calls; simpl; tauto|]. split.
  - apply contains_spec. exists nl. eexists. unfold body_text.
    rewrite <- !app_assoc. reflexivity.
  - apply contains_spec.
    destruct (join_line nl _ line Hin) as (before & rest & E).
    destruct (body_text_split today) as (pre & post & Hbody).
    exists (pre ++ before), (rest ++ post).
    rewrite Hbody. unfold summary_text. rewrite E. now rewrite <- !app_assoc.
Qed.

Lemma page_body_carries_summary_witness :
  In (lit "Phone: 555-1234") (summary_lines scenario_record) /\
  contains (body_text (summary_text scenario_record) (lit "November 03, 2026"))
    (lit "Phone: 555-1234") = true.
Proof.
  assert (Hin : In (lit "Phone: 555-1234") (summary_lines scenario_record))
    by (vm_compute; tauto).
  destruct (page_body_carries_summary scenario_record (lit "November 03, 2026")
              (lit "Phone: 555-1234") Hin) as (_ & _ & H).
  exact (conj Hin H).
Defined.
